(** * Camera Sensor Database (Blender add-on): dataset store and cascading selector

    A shallow embedding of [camera_sensor_database/__init__.py].  The global
    [SENSOR_DATA], the scene properties, the host objects the operators write
    to, the persisted [sensors.json] file and the operator reports are the
    fields of one [world] record; the functions of the add-on are written in a
    small state-and-exception monad over it.  Library calls the add-on makes
    (the JSON reader, [urlopen], the file system) are represented by their
    outcomes, and so is the host's answer to an assignment to one of its
    properties: it takes the value or raises. *)

From Stdlib Require Import ZArith String List.
From Stdlib Require Import Floats.SpecFloat.
From Stdlib Require Import OrderedTypeEx.
From stdpp Require Import gmap strings list sorting.

Set Warnings "-register-all".
Local Open Scope string_scope.

(** ** Python values *)

(** What [json.load] produces: [None], [bool], [int] (unbounded), [float]
    (binary64, through the Standard Library's specification floats), [str],
    [list] and [dict] with string keys. *)
Inductive json : Type :=
| JNull
| JBool (b : bool)
| JInt (n : Z)
| JFloat (x : spec_float)
| JStr (s : string)
| JList (l : list json)
| JDict (d : gmap string json).

(** The exception classes that occur in the add-on and in the calls it makes.
    All of them derive from [Exception]. *)
Inductive exn : Type :=
| KeyError
| TypeError
| AttributeError
| JSONDecodeError
| UnicodeDecodeError
| OSError
| URLError
| HTTPError
| IncompleteRead
| ValueError.

#[global] Instance exn_eq_dec : EqDecision exn.
Proof. solve_decision. Defined.

(** The outcome of evaluating an expression: a value or a raised exception. *)
Inductive res (A : Type) : Type :=
| Ok (a : A)
| Raise (e : exn).
Arguments Ok {A} a.
Arguments Raise {A} e.

#[global] Instance res_ret : MRet res := fun A a => Ok a.

#[global] Instance res_bind : MBind res := fun A B k r =>
  match r with
  | Ok a => k a
  | Raise e => Raise e
  end.

(** [v[k]] for a string [k]: only a dict can be subscripted by a string; a
    missing key is a [KeyError], any other receiver a [TypeError]. *)
Definition py_getitem (v : json) (k : string) : res json :=
  match v with
  | JDict d =>
      match d !! k with
      | Some x => Ok x
      | None => Raise KeyError
      end
  | _ => Raise TypeError
  end.

(** [v.get(k, default)]: only a dict has the method. *)
Definition py_get_default (v : json) (k : string) (default : json) : res json :=
  match v with
  | JDict d => Ok (from_option id default (d !! k))
  | _ => Raise AttributeError
  end.

(** [v.get(k)]: the default is [None]. *)
Definition py_get (v : json) (k : string) : res json :=
  py_get_default v k JNull.

(** [v.keys()].  A [gmap] does not record insertion order; every caller in the
    add-on sorts the keys before using them. *)
Definition py_keys (v : json) : res (list string) :=
  match v with
  | JDict d => Ok (map_to_list d).*1
  | _ => Raise AttributeError
  end.

(** Truth value testing, as [if v:] and [not v] perform it: [None], [False],
    a zero number and an empty string or container are false. *)
Definition truthy (v : json) : bool :=
  match v with
  | JNull => false
  | JBool b => b
  | JInt n => negb (n =? 0)%Z
  | JFloat (S754_zero _) => false
  | JFloat _ => true
  | JStr s => negb (String.length s =? 0)%nat
  | JList l => negb (length l =? 0)%nat
  | JDict d => negb (size d =? 0)%nat
  end.

(** [isinstance(v, int)]: [bool] is a subclass of [int]. *)
Definition isinstance_int (v : json) : bool :=
  match v with
  | JInt _ | JBool _ => true
  | _ => false
  end.

(** ** Enum items and [sorted] *)

(** An item of a dynamic enum: [(identifier, name, description)]. *)
Definition item : Type := string * string * string.

Definition identifier (x : item) : string := x.1.1.

(** Tuples compare component by component.  A string stands for its UTF-8
    bytes, and the order of the bytes is the order of the code points Python
    compares. *)
Definition item_compare (x y : item) : comparison :=
  match String.compare x.1.1 y.1.1 with
  | Eq =>
      match String.compare x.1.2 y.1.2 with
      | Eq => String.compare x.2 y.2
      | c => c
      end
  | c => c
  end.

Definition item_le (x y : item) : Prop := item_compare x y <> Gt.

Definition str_le (a b : string) : Prop := String.compare a b <> Gt.

#[global] Instance item_le_dec : RelDecision item_le.
Proof. intros x y. unfold item_le. solve_decision. Defined.

#[global] Instance str_le_dec : RelDecision str_le.
Proof. intros x y. unfold str_le. solve_decision. Defined.

(** [sorted(items)] on a list of tuples. *)
Definition sorted (items : list item) : list item := merge_sort item_le items.

(** ** The world the add-on runs in *)

(** A host object (camera data, render settings, add-on preferences) is the
    map of its attributes.  An assignment the host accepts stores the value;
    what the host's property system does with it afterwards (conversion,
    clamping) is outside the add-on. *)
Abbreviation object := (gmap string json).

(** Why the host refuses an assignment to a property of the camera or of the
    render settings: the value has the wrong type ([TypeError]), it does not
    fit the property ([ValueError]), or the property cannot be written
    ([AttributeError]). *)
Inductive refusal : Type := wrong_type | out_of_range | read_only.

Definition refusal_exn (x : refusal) : exn :=
  match x with
  | wrong_type => TypeError
  | out_of_range => ValueError
  | read_only => AttributeError
  end.

(** [CSD_SensorProperties]: the identifiers of the three enum selections; an
    enum without a selection reads as the empty string. *)
Record CSD_SensorProperties : Type := {
  manufacturers : string;
  models : string;
  formats : string
}.

Inductive level : Type := INFO | WARNING | ERROR.

(** The pieces of an f-string: literal text, a formatted value, a formatted
    exception. *)
Inductive piece : Type :=
| Text (s : string)
| Val (v : json)
| Exc (e : exn).

(** The set an operator returns. *)
Inductive status : Type := FINISHED | CANCELLED.

Record world : Type := {
  SENSOR_DATA : json;                          (* the module global *)
  csd_sensor_properties : CSD_SensorProperties; (* context.scene.csd_sensor_properties *)
  camera : option object;                      (* context.camera, [None] without one *)
  render : object;                             (* context.scene.render *)
  preferences : object;                        (* the add-on preferences *)
  sensors_json : option (list Byte.byte);      (* the file at get_sensors_file_path() *)
  reports : list (level * list piece);         (* self.report(...), oldest first *)
  stdout : list string;                        (* print(...), oldest first *)
  host_refuses : string -> json -> option refusal
    (* the host's answer to [obj.<name> = v] on the camera and the render
       settings: [None] when it takes the value *)
}.

Definition set_SENSOR_DATA (v : json) (w : world) : world :=
  {| SENSOR_DATA := v; csd_sensor_properties := csd_sensor_properties w;
     camera := camera w; render := render w; preferences := preferences w;
     sensors_json := sensors_json w; reports := reports w; stdout := stdout w;
     host_refuses := host_refuses w |}.

Definition set_camera (c : option object) (w : world) : world :=
  {| SENSOR_DATA := SENSOR_DATA w; csd_sensor_properties := csd_sensor_properties w;
     camera := c; render := render w; preferences := preferences w;
     sensors_json := sensors_json w; reports := reports w; stdout := stdout w;
     host_refuses := host_refuses w |}.

Definition set_render (r : object) (w : world) : world :=
  {| SENSOR_DATA := SENSOR_DATA w; csd_sensor_properties := csd_sensor_properties w;
     camera := camera w; render := r; preferences := preferences w;
     sensors_json := sensors_json w; reports := reports w; stdout := stdout w;
     host_refuses := host_refuses w |}.

Definition set_preferences (p : object) (w : world) : world :=
  {| SENSOR_DATA := SENSOR_DATA w; csd_sensor_properties := csd_sensor_properties w;
     camera := camera w; render := render w; preferences := p;
     sensors_json := sensors_json w; reports := reports w; stdout := stdout w;
     host_refuses := host_refuses w |}.

Definition set_sensors_json (f : option (list Byte.byte)) (w : world) : world :=
  {| SENSOR_DATA := SENSOR_DATA w; csd_sensor_properties := csd_sensor_properties w;
     camera := camera w; render := render w; preferences := preferences w;
     sensors_json := f; reports := reports w; stdout := stdout w;
     host_refuses := host_refuses w |}.

Definition add_report (l : level) (msg : list piece) (w : world) : world :=
  {| SENSOR_DATA := SENSOR_DATA w; csd_sensor_properties := csd_sensor_properties w;
     camera := camera w; render := render w; preferences := preferences w;
     sensors_json := sensors_json w; reports := reports w ++ [(l, msg)];
     stdout := stdout w; host_refuses := host_refuses w |}.

Definition add_stdout (line : string) (w : world) : world :=
  {| SENSOR_DATA := SENSOR_DATA w; csd_sensor_properties := csd_sensor_properties w;
     camera := camera w; render := render w; preferences := preferences w;
     sensors_json := sensors_json w; reports := reports w;
     stdout := stdout w ++ [line]; host_refuses := host_refuses w |}.

(** ** Statements: state passing with exceptions *)

(** A statement maps the world to an outcome and the world it leaves behind;
    what was written before an exception stays written. *)
Definition M (A : Type) : Type := world -> res A * world.

#[global] Instance M_ret : MRet M := fun A a w => (Ok a, w).

#[global] Instance M_bind : MBind M := fun A B k m w =>
  match m w with
  | (Ok a, w') => k a w'
  | (Raise e, w') => (Raise e, w')
  end.

(** Evaluate an expression that reads the world and may raise. *)
Definition eval {A : Type} (f : world -> res A) : M A := fun w => (f w, w).

Definition modify (f : world -> world) : M unit := fun w => (Ok tt, f w).

(** [try: body / except <classes>: handler]. *)
Definition try_except {A : Type} (body : M A) (classes : exn -> bool)
    (handler : exn -> M A) : M A :=
  fun w =>
    match body w with
    | (Raise e, w') => if classes e then handler e w' else (Raise e, w')
    | r => r
    end.

(** Chained subscription [r[k]]. *)
Notation "r .[ k ]" := (r ≫= (fun v => py_getitem v k))
  (at level 1, left associativity, format "r .[ k ]").

Definition report (l : level) (msg : list piece) : M unit := modify (add_report l msg).

Definition print (line : string) : M unit := modify (add_stdout line).

(** ** Dynamic enum callbacks *)

Definition NO_DATA : item :=
  ("NONE", "No Data Found", "Please download the database in Add-on Preferences.").

Definition NOT_APPLICABLE : item := ("NONE", "N/A", "").

(** [[(m, m, "") for m in keys]]. *)
Definition items_of (keys : list string) : list item :=
  (fun m => (m, m, "")) <$> keys.

(** [sorted(items) if items else [fallback]]. *)
Definition sorted_or (items : list item) (fallback : item) : list item :=
  if negb (length items =? 0)%nat then sorted items else [fallback].

(** [r] lists the keys of [d] as items [(k, k, "")], each key once, in
    increasing order. *)
Definition lists_keys (d : gmap string json) (r : list item) : Prop :=
  exists ks : list string,
    r = items_of ks /\ StronglySorted str_le ks /\ NoDup ks /\
    forall k, k ∈ ks <-> is_Some (d !! k).

(** The choice list for the keys of [d]: the keys in order, or the single
    [fallback] item when there is no key. *)
Definition choices_for (d : gmap string json) (fallback : item) (r : list item) : Prop :=
  (d = ∅ /\ r = [fallback]) \/ (d <> ∅ /\ lists_keys d r).

(** What the specification asks of a choice list over the keys of [d]:
    [ks] holds exactly the keys of [d], in strictly increasing order of their
    code points (so sorted, and each key once). *)
Definition keys_in_order (d : gmap string json) (ks : list string) : Prop :=
  StronglySorted (fun a b => String.compare a b = Lt) ks /\
  forall k, k ∈ ks <-> is_Some (d !! k).

Definition get_manufacturers (w : world) : res (list item) :=
  keys ← py_keys (SENSOR_DATA w);
  Ok (sorted_or (items_of keys) NO_DATA).

Definition get_models (w : world) : res (list item) :=
  let props := csd_sensor_properties w in
  if negb (truthy (JStr (manufacturers props)))
     || String.eqb (manufacturers props) "NONE"
  then Ok [NOT_APPLICABLE]
  else
    by_manufacturer ← py_get_default (SENSOR_DATA w) (manufacturers props) (JDict ∅);
    models ← py_keys by_manufacturer;
    Ok (sorted_or (items_of models) NOT_APPLICABLE).

Definition get_formats (w : world) : res (list item) :=
  let props := csd_sensor_properties w in
  if negb (truthy (JStr (manufacturers props)))
     || negb (truthy (JStr (models props)))
     || String.eqb (manufacturers props) "NONE"
     || String.eqb (models props) "NONE"
  then Ok [NOT_APPLICABLE]
  else
    by_manufacturer ← py_get_default (SENSOR_DATA w) (manufacturers props) (JDict ∅);
    model ← py_get_default by_manufacturer (models props) (JDict ∅);
    dimensions ← py_get_default model "sensor dimensions" (JDict ∅);
    formats ← py_keys dimensions;
    Ok (sorted_or (items_of formats) NOT_APPLICABLE).

(** ** Operators *)

(** The record of the selected format:
    [SENSOR_DATA[props.manufacturers][props.models]["sensor dimensions"][props.formats]]. *)
Definition format_record (w : world) : res json :=
  let props := csd_sensor_properties w in
  (Ok (SENSOR_DATA w)).[manufacturers props].[models props].["sensor dimensions"]
    .[formats props].

(** The object the two apply operators subscript out of it: [...["mm"]] and
    [...["resolution"]]. *)
Definition format_field (w : world) (field : string) : res json :=
  (format_record w).[field].

(** [cam_data.<name> = v] with [cam_data = context.camera]; without a camera
    the receiver is [None].  The host takes the value or raises. *)
Definition set_camera_attr (name : string) (v : json) : M unit :=
  fun w =>
    match camera w with
    | Some cam_data =>
        match host_refuses w name v with
        | None => (Ok tt, set_camera (Some (<[name := v]> cam_data)) w)
        | Some x => (Raise (refusal_exn x), w)
        end
    | None => (Raise AttributeError, w)
    end.

(** [context.scene.render.<name> = v].  The host takes the value or raises. *)
Definition set_render_attr (name : string) (v : json) : M unit :=
  fun w =>
    match host_refuses w name v with
    | None => (Ok tt, set_render (<[name := v]> (render w)) w)
    | Some x => (Raise (refusal_exn x), w)
    end.

Definition is_KeyError (e : exn) : bool := bool_decide (e = KeyError).

Definition is_KeyError_or_TypeError (e : exn) : bool :=
  bool_decide (e = KeyError) || bool_decide (e = TypeError).

Definition CSD_OT_ApplySensor_poll : M bool :=
  eval (fun w =>
    let props := csd_sensor_properties w in
    Ok (bool_decide (camera w <> None)
        && truthy (JStr (formats props))
        && negb (String.eqb (formats props) "NONE"))).

Definition CSD_OT_ApplySensor_execute : M status :=
  try_except
    (format_data ← eval (fun w => format_field w "mm");
     width ← eval (fun _ => py_get format_data "width");
     height ← eval (fun _ => py_get format_data "height");
     if truthy width && truthy height then
       set_camera_attr "sensor_fit" (JStr "HORIZONTAL");;
       set_camera_attr "sensor_width" width;;
       set_camera_attr "sensor_height" height;;
       report INFO [Text "Sensor set to: "; Val width; Text "mm x "; Val height; Text "mm"];;
       mret FINISHED
     else
       report WARNING [Text "Selected format has no sensor data."];;
       mret CANCELLED)
    is_KeyError
    (fun _ =>
       report ERROR [Text "Could not apply sensor settings. Data not found."];;
       mret CANCELLED).

Definition CSD_OT_ApplyResolution_poll : M bool :=
  props ← eval (fun w => Ok (csd_sensor_properties w));
  if negb (truthy (JStr (formats props))) || String.eqb (formats props) "NONE"
  then mret false
  else
    try_except
      (res_data ← eval (fun w => format_field w "resolution");
       width ← eval (fun _ => py_get res_data "width");
       height ← eval (fun _ => py_get res_data "height");
       mret (isinstance_int width && isinstance_int height))
      is_KeyError_or_TypeError
      (fun _ => mret false).

Definition CSD_OT_ApplyResolution_execute : M status :=
  try_except
    (res_data ← eval (fun w => format_field w "resolution");
     width ← eval (fun _ => py_get res_data "width");
     height ← eval (fun _ => py_get res_data "height");
     if isinstance_int width && isinstance_int height then
       set_render_attr "resolution_x" width;;
       set_render_attr "resolution_y" height;;
       report INFO [Text "Resolution set to: "; Val width; Text " x "; Val height];;
       mret FINISHED
     else
       report WARNING [Text "Selected format has no resolution data."];;
       mret CANCELLED)
    is_KeyError
    (fun _ =>
       report ERROR [Text "Could not apply resolution settings. Data not found."];;
       mret CANCELLED).

(** The world [CSD_OT_ApplySensor.execute] leaves when it applies
    [width] and [height] to the camera [cam_data]. *)
Definition sensor_applied (width height : json) (cam_data : object) (w : world) : world :=
  add_report INFO [Text "Sensor set to: "; Val width; Text "mm x "; Val height; Text "mm"]
    (set_camera (Some (<["sensor_height" := height]> (<["sensor_width" := width]>
                   (<["sensor_fit" := JStr "HORIZONTAL"]> cam_data)))) w).

(** The world [CSD_OT_ApplyResolution.execute] leaves when it applies
    [width] and [height] to the render settings. *)
Definition resolution_applied (width height : json) (w : world) : world :=
  add_report INFO [Text "Resolution set to: "; Val width; Text " x "; Val height]
    (set_render (<["resolution_y" := height]> (<["resolution_x" := width]> (render w))) w).

(** The selection [(m, mo, f)] misses the dataset at some level of the
    hierarchy: the manufacturer, the model under it, the model's
    [sensor dimensions] mapping, or the format in that mapping. *)
Inductive absent : json -> string -> string -> string -> Prop :=
| absent_manufacturer (d : gmap string json) (m mo f : string) :
    d !! m = None -> absent (JDict d) m mo f
| absent_model (d ms : gmap string json) (m mo f : string) :
    d !! m = Some (JDict ms) -> ms !! mo = None -> absent (JDict d) m mo f
| absent_dimensions (d ms rec : gmap string json) (m mo f : string) :
    d !! m = Some (JDict ms) -> ms !! mo = Some (JDict rec) ->
    rec !! "sensor dimensions" = None -> absent (JDict d) m mo f
| absent_format (d ms rec fs : gmap string json) (m mo f : string) :
    d !! m = Some (JDict ms) -> ms !! mo = Some (JDict rec) ->
    rec !! "sensor dimensions" = Some (JDict fs) -> fs !! f = None ->
    absent (JDict d) m mo f.

(** The host runs [execute] only when [poll] answers true. *)
Definition run_operator (poll : M bool) (execute : M status) : M (option status) :=
  enabled ← poll;
  if enabled : bool
  then st ← execute; (mret (Some st) : M (option status))
  else mret None.

(** ** The selector's resolve queries, read off the operators *)

(** A session with dataset [D] and the selection [(m, mo, f)], a camera and
    render settings on which nothing has been set yet and which take every
    value. *)
Definition session (D : json) (m mo f : string) : world :=
  {| SENSOR_DATA := D;
     csd_sensor_properties := {| manufacturers := m; models := mo; formats := f |};
     camera := Some ∅; render := ∅; preferences := ∅;
     sensors_json := None; reports := []; stdout := [];
     host_refuses := fun _ _ => None |}.

(** The two values found under [a] and [b] on a host object. *)
Definition written (o : object) (a b : string) : option (json * json) :=
  x ← o !! a; y ← o !! b; Some (x, y).

(** [resolveSensorDimensions]: the pair [CSD_OT_ApplySensor.execute] puts on
    the camera, [None] when it cancels. *)
Definition resolveSensorDimensions (D : json) (m mo f : string)
    : res (option (json * json)) :=
  match CSD_OT_ApplySensor_execute (session D m mo f) with
  | (Ok FINISHED, w') =>
      Ok (cam_data ← camera w'; written cam_data "sensor_width" "sensor_height")
  | (Ok CANCELLED, _) => Ok None
  | (Raise e, _) => Raise e
  end.

(** [resolveResolution]: the pair [CSD_OT_ApplyResolution] puts on the render
    settings when the host runs it ([poll], then [execute]); [None] when the
    operator is disabled or cancels. *)
Definition resolveResolution (D : json) (m mo f : string)
    : res (option (json * json)) :=
  match run_operator CSD_OT_ApplyResolution_poll CSD_OT_ApplyResolution_execute
          (session D m mo f) with
  | (Ok (Some FINISHED), w') => Ok (written (render w') "resolution_x" "resolution_y")
  | (Ok _, _) => Ok None
  | (Raise e, _) => Raise e
  end.

(** ** Dataset store *)

Definition SENSORS_URL : string :=
  "https://raw.githubusercontent.com/EmberLightVFX/Camera-Sensor-Database/refs/heads/main/data/sensors.json".

(** What the calls outside the add-on answer during one operator run. *)
Record environment : Type := {
  online_access : bool;                          (* bpy.app.online_access *)
  sensors_file_path : string;                    (* get_sensors_file_path() *)
  urlopen_SENSORS_URL : res (res (list Byte.byte));
    (* urlopen(req) raises, or gives a response whose read() raises or
       gives the body *)
  urlopen_API_URL : res (res (list Byte.byte));  (* the same for API_URL *)
  can_open_wb : bool;      (* open(file_path, 'wb') succeeds; OSError otherwise *)
  disk_room : option nat;
    (* write() raises OSError after this many bytes; [None]: no limit *)
  can_open_r : bool;       (* open(file_path, 'r') succeeds; OSError otherwise *)
  now : string                                   (* datetime.now().strftime(...) *)
}.

(** [open(...)]: the file object, or an [OSError]. *)
Definition py_open (can_open : bool) : res unit :=
  if can_open then Ok tt else Raise OSError.

Section Store.

(** The JSON reader of the Python library ([json.load] / [json.loads]),
    decoding included: a value, or the exception it raises. *)
Variable json_loads : list Byte.byte -> res json.

Variable env : environment.

Definition load_sensor_data : M unit :=
  file ← eval (fun w => Ok (sensors_json w));
  match file with
  | Some content =>                       (* os.path.exists(file_path) *)
      try_except
        (eval (fun _ => py_open (can_open_r env));;
         data ← eval (fun _ => json_loads content);
         modify (set_SENSOR_DATA data);;
         print "Camera Sensor Database: Loaded sensor data.")
        (fun e => bool_decide (e = JSONDecodeError))
        (fun _ =>
           modify (set_SENSOR_DATA (JDict ∅));;
           print "Camera Sensor Database: Error reading sensors.json file.")
  | None =>
      modify (set_SENSOR_DATA (JDict ∅));;
      print "Camera Sensor Database: sensors.json not found."
  end.

(** [open(file_path, 'wb')]: a successful open leaves an empty file. *)
Definition open_for_writing : M unit :=
  eval (fun _ => py_open (can_open_wb env));;
  modify (set_sensors_json (Some [])).

(** [out_file.write(body)], flushed when the [with] block is left. *)
Definition write_file (body : list Byte.byte) : M unit :=
  match disk_room env with
  | Some room =>
      if (room <? length body)%nat
      then modify (set_sensors_json (Some (take room body)));;
           eval (fun _ => Raise OSError)
      else modify (set_sensors_json (Some body))
  | None => modify (set_sensors_json (Some body))
  end.

(** [remote_sha] and [last_checked] are declared as [StringProperty]. *)
Definition is_StringProperty (name : string) : bool :=
  String.eqb name "remote_sha" || String.eqb name "last_checked".

(** [prefs.<name> = v].  A [StringProperty] takes a [str] and raises
    [TypeError] on any other value. *)
Definition set_pref (name : string) (v : json) : M unit :=
  match v with
  | JStr _ => modify (fun w => set_preferences (<[name := v]> (preferences w)) w)
  | _ =>
      if is_StringProperty name
      then eval (fun _ => Raise TypeError)
      else modify (fun w => set_preferences (<[name := v]> (preferences w)) w)
  end.

Definition CSD_OT_UpdateSensors_execute : M status :=
  try_except
    (if negb (online_access env) then
       report WARNING
         [Text "Internet access is disabled in Blender preferences. Cannot update sensor database."];;
       mret CANCELLED
     else
       report INFO [Text "Downloading sensor database from "; Text SENSORS_URL; Text "..."];;
       response ← eval (fun _ => urlopen_SENSORS_URL env);
       open_for_writing;;
       body ← eval (fun _ => response);
       write_file body;;
       api_response ← eval (fun _ => urlopen_API_URL env);
       raw ← eval (fun _ => api_response);
       data ← eval (fun _ => json_loads raw);
       sha ← eval (fun _ => py_get data "sha");
       set_pref "remote_sha" sha;;
       set_pref "update_available" (JBool false);;
       set_pref "last_checked" (JStr (now env));;
       report INFO [Text "Sensor database saved to "; Text (sensors_file_path env)];;
       load_sensor_data;;
       mret FINISHED)
    (fun _ => true)
    (fun e =>
       report ERROR [Text "Failed to download or save sensor database: "; Exc e];;
       mret CANCELLED).

End Store.

(** ** Worked data *)

#[global] Instance byte_eq_dec : EqDecision Byte.byte := Byte.byte_eq_dec.

(** A reader given by the documents it has been shown: each row of [table]
    is a file content and what Python's JSON reader answers on it; a
    document that is not listed is reported as not decodable. *)
Definition json_loads_on (table : list (list Byte.byte * res json))
    (document : list Byte.byte) : res json :=
  match list_find (fun row => row.1 = document) table with
  | Some (_, row) => row.2
  | None => Raise JSONDecodeError
  end.

(** The dataset of the specification's worked example, level by level, with
    the two resolution fields left open; 36.0 is [9 * 2^2] and 24.0 is
    [3 * 2^3]. *)
Definition full_frame_record (width height : json) : gmap string json :=
  {[ "mm" := JDict {[ "width" := JFloat (S754_finite false 9 2);
                      "height" := JFloat (S754_finite false 3 3) ]};
     "resolution" := JDict {[ "width" := width; "height" := height ]} ]}.

Definition x1_formats (width height : json) : gmap string json :=
  {[ "Full Frame" := JDict (full_frame_record width height) ]}.

Definition x1_record (width height : json) : gmap string json :=
  {[ "sensor dimensions" := JDict (x1_formats width height) ]}.

Definition acme_models (width height : json) : gmap string json :=
  {[ "X1" := JDict (x1_record width height) ]}.

Definition manufacturers_of (width height : json) : gmap string json :=
  {[ "Acme" := JDict (acme_models width height) ]}.

Definition acme : json := JDict (manufacturers_of (JInt 8192) (JInt 5464)).

(** A dataset whose only format has a sensor width of zero. *)
Definition acme_zero_width : json :=
  JDict {[ "Acme" := JDict {[ "X1" := JDict {[ "sensor dimensions" := JDict {[
    "Full Frame" := JDict {[
       "mm" := JDict {[ "width" := JFloat (S754_zero false);
                        "height" := JFloat (S754_finite false 3 3) ]} ]} ]} ]} ]} ]}.

(** 8192.5 is [16385 * 2^-1]. *)
Definition f8192_5 : json := JFloat (S754_finite false 16385 (-1)).

Definition bytes (s : string) : list Byte.byte := list_byte_of_string s.

(** [s] between two double-quote characters (code 34). *)
Definition quoted (s : string) : string :=
  String (Ascii.ascii_of_nat 34) (s +:+ String (Ascii.ascii_of_nat 34) EmptyString).

(** Four documents: a dataset with one manufacturer, the version metadata, a
    JSON array, and a dataset cut off in the middle. *)
Definition acme_document : list Byte.byte :=
  bytes ("{" +:+ quoted "Acme" +:+ ": {}}").

Definition sha_document : list Byte.byte :=
  bytes ("{" +:+ quoted "sha" +:+ ": " +:+ quoted "3f2a" +:+ "}").

Definition array_document : list Byte.byte := bytes "[1]".

Definition cut_document : list Byte.byte :=
  bytes ("{" +:+ quoted "Acme" +:+ ": ").

Definition acme_only : json := JDict {[ "Acme" := JDict ∅ ]}.

(** What [json.loads] makes of them. *)
Definition reader : list Byte.byte -> res json :=
  json_loads_on
    [ (acme_document, Ok acme_only);
      (sha_document, Ok (JDict {[ "sha" := JStr "3f2a" ]}));
      (array_document, Ok (JList [JInt 1]));
      (cut_document, Raise JSONDecodeError) ].

(** An environment in which every outside call succeeds: the dataset request
    answers [body], the version request answers [version]. *)
Definition online (body version : list Byte.byte) : environment :=
  {| online_access := true;
     sensors_file_path := "/config/extensions/user_default/camera_sensor_database/sensors.json";
     urlopen_SENSORS_URL := Ok (Ok body);
     urlopen_API_URL := Ok (Ok version);
     can_open_wb := true;
     disk_room := None;
     can_open_r := true;
     now := "November 03, 2026 at 02:02 PM" |}.

(** The same environment, except that the connection drops while the body of
    the dataset is received. *)
Definition dropped (version : list Byte.byte) : environment :=
  {| online_access := true;
     sensors_file_path := "/config/extensions/user_default/camera_sensor_database/sensors.json";
     urlopen_SENSORS_URL := Ok (Raise IncompleteRead);
     urlopen_API_URL := Ok (Ok version);
     can_open_wb := true;
     disk_room := None;
     can_open_r := true;
     now := "November 03, 2026 at 02:02 PM" |}.

(** The same environment, except that the request for the dataset fails. *)
Definition unreachable (version : list Byte.byte) : environment :=
  {| online_access := true;
     sensors_file_path := "/config/extensions/user_default/camera_sensor_database/sensors.json";
     urlopen_SENSORS_URL := Raise URLError;
     urlopen_API_URL := Ok (Ok version);
     can_open_wb := true;
     disk_room := None;
     can_open_r := true;
     now := "November 03, 2026 at 02:02 PM" |}.

(** A session whose persisted file holds [content]. *)
Definition stored (content : list Byte.byte) (D : json) : world :=
  set_sensors_json (Some content) (session D "" "" "").

(** A dataset whose only format gives its sensor width as a string. *)
Definition acme_text_width : json :=
  JDict {[ "Acme" := JDict {[ "X1" := JDict {[ "sensor dimensions" := JDict {[
    "Full Frame" := JDict {[
       "mm" := JDict {[ "width" := JStr "36";
                        "height" := JFloat (S754_finite false 3 3) ]} ]} ]} ]} ]} ]}.

(** A dataset whose only format has a resolution width of [2^31]. *)
Definition acme_wide : json := JDict (manufacturers_of (JInt 2147483648) (JInt 5464)).

(** An example of a host that refuses values: the sensor sizes take numbers
    only, the resolutions take integers of 32 bits only, and every other
    property takes what it is given. *)
Definition typed_host (name : string) (v : json) : option refusal :=
  if String.eqb name "sensor_width" || String.eqb name "sensor_height" then
    match v with
    | JInt _ | JBool _ | JFloat _ => None
    | _ => Some wrong_type
    end
  else if String.eqb name "resolution_x" || String.eqb name "resolution_y" then
    match v with
    | JInt n => if ((-2147483648 <=? n) && (n <=? 2147483647))%Z
                then None else Some out_of_range
    | JBool _ => None
    | _ => Some wrong_type
    end
  else None.

(** The world [w] on the host [h]. *)
Definition on_host (h : string -> json -> option refusal) (w : world) : world :=
  {| SENSOR_DATA := SENSOR_DATA w; csd_sensor_properties := csd_sensor_properties w;
     camera := camera w; render := render w; preferences := preferences w;
     sensors_json := sensors_json w; reports := reports w; stdout := stdout w;
     host_refuses := h |}.

(** A dataset with three manufacturers, two models and two formats. *)
Definition x1_two_formats : gmap string json :=
  {[ "Super 35" := JDict {[ "mm" := JDict {[ "width" := JInt 25; "height" := JInt 14 ]};
                            "resolution" := JDict {[ "width" := JInt 4096;
                                                     "height" := JInt 2304 ]} ]};
     "Full Frame" := JDict (full_frame_record (JInt 8192) (JInt 5464)) ]}.

Definition x1_two_formats_record : gmap string json :=
  {[ "sensor dimensions" := JDict x1_two_formats ]}.

Definition catalogue_models : gmap string json :=
  {[ "X2" := JDict {[ "sensor dimensions" := JDict ∅ ]};
     "X1" := JDict x1_two_formats_record ]}.

Definition catalogue_manufacturers : gmap string json :=
  {[ "arri" := JDict ∅; "Zeiss" := JDict ∅; "Acme" := JDict catalogue_models ]}.

Definition catalogue : json := JDict catalogue_manufacturers.

(** A dataset with a manufacturer named [NONE]. *)
Definition none_named : gmap string json :=
  {[ "NONE" := JDict (acme_models (JInt 8192) (JInt 5464)) ]}.

(** ** The update check, the panels and the selection *)

(** The selection replaced by [p], as the user's choices in the three enums
    replace it. *)
Definition select (p : CSD_SensorProperties) (w : world) : world :=
  {| SENSOR_DATA := SENSOR_DATA w; csd_sensor_properties := p;
     camera := camera w; render := render w; preferences := preferences w;
     sensors_json := sensors_json w; reports := reports w; stdout := stdout w;
     host_refuses := host_refuses w |}.

(** [prefs.remote_sha]: a [StringProperty] with default [""].  The host keeps
    a [str] there; the attribute reads as the default while nothing, or
    something that is no [str], is recorded under the name. *)
Definition prefs_remote_sha (w : world) : string :=
  match preferences w !! "remote_sha" with
  | Some (JStr s) => s
  | _ => ""
  end.

(** [prefs.last_checked]: a [StringProperty] with default ["Never"]. *)
Definition prefs_last_checked (w : world) : json :=
  default (JStr "Never") (preferences w !! "last_checked").

(** [prefs.update_available]: a [BoolProperty] with default [False]. *)
Definition prefs_update_available (w : world) : json :=
  default (JBool false) (preferences w !! "update_available").

(** [v != s] for a [str] [s]: a value that is no [str] differs from every
    [str]. *)
Definition py_ne_str (v : json) (s : string) : bool :=
  match v with
  | JStr t => negb (String.eqb t s)
  | _ => true
  end.

Section UpdateCheck.

Variable json_loads : list Byte.byte -> res json.
Variable env : environment.

(** [response.status] of the answer to the version request. *)
Variable response_status : Z.

Definition CSD_OT_CheckForUpdate_execute : M status :=
  try_except
    (if negb (online_access env) then
       report WARNING [Text "Internet access is disabled."];;
       mret CANCELLED
     else
       response ← eval (fun _ => urlopen_API_URL env);
       if negb (response_status =? 200)%Z then
         report ERROR [Text "Failed to check for updates (HTTP ";
                       Val (JInt response_status); Text ")"];;
         mret CANCELLED
       else
         raw ← eval (fun _ => response);
         data ← eval (fun _ => json_loads raw);
         remote_sha ← eval (fun _ => py_get data "sha");
         stored ← eval (fun w => Ok (prefs_remote_sha w));
         (if truthy remote_sha && py_ne_str remote_sha stored then
            set_pref "update_available" (JBool true);;
            report INFO [Text "An update for the sensor database is available."]
          else
            set_pref "update_available" (JBool false);;
            report INFO [Text "Sensor database is up to date."]);;
         set_pref "last_checked" (JStr (now env));;
         mret FINISHED)
    (fun _ => true)
    (fun e =>
       report ERROR [Text "Update check failed: "; Exc e];;
       mret CANCELLED).

End UpdateCheck.

(** A call on a layout object while a panel is drawn; [parent] is the
    variable the source calls it on. *)
Inductive ui_call : Type :=
| ui_box (parent : string)
| ui_row (parent : string) (align : bool)
| ui_column (parent : string) (align : bool)
| ui_label (parent : string) (text : list piece) (icon : option string)
| ui_prop (parent : string) (property : string)
| ui_operator (parent : string) (idname : string) (icon : option string).

(** [CSD_AddonPreferences.draw]: the layout calls it makes, in order. *)
Definition CSD_AddonPreferences_draw (w : world) : list ui_call :=
  [ui_box "layout";
   ui_label "box" [Text "Sensor Database"] None;
   ui_row "box" false;
   ui_label "row" [Text "Last Checked: "; Val (prefs_last_checked w)] None]
  ++ (if truthy (prefs_update_available w) then
        [ui_row "box" false;
         ui_label "row" [Text "An update is available."] (Some "INFO");
         ui_row "box" false;
         ui_operator "row" "csd.update_sensors" (Some "IMPORT")]
      else
        [ui_row "box" false;
         ui_label "row" [Text "Database is up to date."] None])
  ++ [ui_row "box" false;
      ui_operator "row" "csd.check_for_update" (Some "FILE_REFRESH")].

(** [CSD_PT_MainPanel.draw]: the layout calls it makes, in order. *)
Definition CSD_PT_MainPanel_draw (w : world) : list ui_call :=
  let props := csd_sensor_properties w in
  if negb (truthy (SENSOR_DATA w)) then
    [ui_label "layout" [Text "Sensor database not found or is empty."] None;
     ui_label "layout" [Text "Please update in Add-on Preferences."] None]
  else
    [ui_column "layout" true; ui_prop "col" "manufacturers"]
    ++ (if truthy (JStr (manufacturers props))
           && negb (String.eqb (manufacturers props) "NONE")
        then [ui_prop "col" "models"] else [])
    ++ (if truthy (JStr (models props)) && negb (String.eqb (models props) "NONE")
        then [ui_prop "col" "formats";
              ui_row "layout" true;
              ui_operator "row" "csd.apply_sensor" None;
              ui_operator "row" "csd.apply_resolution" None]
        else []).

(** [register()], as far as the world goes: the classes and the scene
    property are the host's; the dataset is loaded. *)
Definition register (json_loads : list Byte.byte -> res json) (env : environment)
    : M unit :=
  load_sensor_data json_loads env.

(** An environment without network access. *)
Definition offline : environment :=
  {| online_access := false;
     sensors_file_path := "/config/extensions/user_default/camera_sensor_database/sensors.json";
     urlopen_SENSORS_URL := Raise URLError;
     urlopen_API_URL := Raise URLError;
     can_open_wb := true;
     disk_room := None;
     can_open_r := true;
     now := "November 03, 2026 at 02:02 PM" |}.

(** * Properties *)

(** ** The order on strings and items *)

Lemma compare_refl (a : string) : String.compare a a = Eq.
Proof. by apply String_as_OT.cmp_eq. Qed.

Lemma compare_Gt_Lt (a b : string) : String.compare a b = Gt <-> String.compare b a = Lt.
Proof.
  rewrite (String.compare_antisym b a).
  destruct (String.compare a b); simpl; split; congruence.
Qed.

Lemma compare_Lt_trans (a b c : string) :
  String.compare a b = Lt -> String.compare b c = Lt -> String.compare a c = Lt.
Proof.
  intros H1 H2. apply String_as_OT.cmp_lt.
  eapply String_as_OT.lt_trans; apply String_as_OT.cmp_lt; eassumption.
Qed.

#[local] Instance str_le_total : Total str_le.
Proof.
  intros a b. unfold str_le.
  destruct (String.compare a b) eqn:E; [left|left|right]; try congruence.
  apply compare_Gt_Lt in E. congruence.
Qed.

#[local] Instance str_le_trans : Transitive str_le.
Proof.
  intros a b c. unfold str_le. intros H1 H2 H3.
  apply compare_Gt_Lt in H3.
  destruct (String.compare a b) eqn:E1; [| |done].
  - apply String_as_OT.cmp_eq in E1. subst b.
    apply compare_Gt_Lt in H3. done.
  - destruct (String.compare b c) eqn:E2; [| |done].
    + apply String_as_OT.cmp_eq in E2. subst c.
      apply compare_Gt_Lt in H3. congruence.
    + pose proof (compare_Lt_trans _ _ _ E1 E2) as E3.
      pose proof (compare_Lt_trans _ _ _ E3 H3) as E4.
      rewrite compare_refl in E4. done.
Qed.

#[local] Instance str_le_antisym : AntiSymm (=) str_le.
Proof.
  intros a b. unfold str_le. intros H1 H2.
  destruct (String.compare a b) eqn:E; [|exfalso|done].
  - by apply String_as_OT.cmp_eq.
  - apply H2. by apply compare_Gt_Lt.
Qed.

#[local] Instance item_le_total : Total item_le.
Proof.
  intros [[a1 a2] a3] [[b1 b2] b3]. unfold item_le, item_compare. simpl.
  rewrite (String.compare_antisym a1 b1), (String.compare_antisym a2 b2),
    (String.compare_antisym a3 b3).
  destruct (String.compare b1 a1), (String.compare b2 a2), (String.compare b3 a3);
    simpl; (by left) || (by right).
Qed.

Lemma item_le_identifier (x y : item) : item_le x y -> str_le (identifier x) (identifier y).
Proof.
  unfold item_le, item_compare, str_le, identifier.
  destruct (String.compare x.1.1 y.1.1); done.
Qed.

Lemma elem_of_keys (d : gmap string json) (k : string) :
  k ∈ (map_to_list d).*1 <-> is_Some (d !! k).
Proof.
  rewrite list_elem_of_fmap. split.
  - intros [[k' v] [-> Hin]]. apply elem_of_map_to_list in Hin. by exists v.
  - intros [v Hv]. exists (k, v). split; [done|]. by apply elem_of_map_to_list.
Qed.

Lemma identifier_items_of (ks : list string) : identifier <$> items_of ks = ks.
Proof.
  unfold items_of.
  induction ks as [|k ks IH]; [done|]. rewrite !fmap_cons. by rewrite IH.
Qed.

Lemma items_of_identifier (r : list item) :
  Forall (fun x => x = (identifier x, identifier x, "")) r ->
  items_of (identifier <$> r) = r.
Proof.
  induction 1 as [|x r Hx _ IH]; [done|].
  unfold items_of in *. rewrite !fmap_cons, IH. by rewrite <- Hx.
Qed.

Lemma sorted_lists_keys (d : gmap string json) :
  lists_keys d (sorted (items_of (map_to_list d).*1)).
Proof.
  set (keys := (map_to_list d).*1).
  set (r := sorted (items_of keys)).
  assert (Hperm : r ≡ₚ items_of keys) by apply merge_sort_Permutation.
  assert (Hids : identifier <$> r ≡ₚ keys).
  { rewrite Hperm. by rewrite identifier_items_of. }
  exists (identifier <$> r). split_and!.
  - symmetry. apply items_of_identifier. rewrite Hperm.
    unfold items_of. apply Forall_fmap, Forall_true. done.
  - apply Sorted_StronglySorted; [apply _|].
    apply (Sorted_fmap identifier item_le str_le); [apply item_le_identifier|].
    apply Sorted_merge_sort. apply _.
  - rewrite Hids. apply NoDup_fst_map_to_list.
  - intros k. rewrite Hids. apply elem_of_keys.
Qed.

Lemma sorted_or_empty (fallback : item) :
  sorted_or (items_of (map_to_list (∅ : gmap string json)).*1) fallback = [fallback].
Proof. by rewrite map_to_list_empty. Qed.

Lemma sorted_or_nonempty (d : gmap string json) (fallback : item) :
  d <> ∅ ->
  sorted_or (items_of (map_to_list d).*1) fallback = sorted (items_of (map_to_list d).*1).
Proof.
  intros Hne. unfold sorted_or, items_of. rewrite !length_fmap.
  destruct (map_to_list d) as [|kv l] eqn:E; [|done].
  by apply map_to_list_empty_iff in E.
Qed.

Lemma sorted_or_choices (d : gmap string json) (fallback : item) :
  choices_for d fallback (sorted_or (items_of (map_to_list d).*1) fallback).
Proof.
  destruct (map_to_list d) as [|kv l] eqn:E.
  - apply map_to_list_empty_iff in E. subst d. left. split; [done|].
    apply sorted_or_empty.
  - assert (d <> ∅) as Hne.
    { intros ->. by rewrite map_to_list_empty in E. }
    right. split; [done|]. rewrite <- E, sorted_or_nonempty by done.
    apply sorted_lists_keys.
Qed.

(** ** Choice lists *)

Lemma strictly_increasing (ks : list string) :
  StronglySorted str_le ks -> NoDup ks ->
  StronglySorted (fun a b => String.compare a b = Lt) ks.
Proof.
  induction 1 as [|a l Hl IH Ha]; intros Hnd; [constructor|].
  apply NoDup_cons in Hnd as [Hnotin Hnd].
  constructor; [by apply IH|].
  apply Forall_forall. intros b Hb.
  rewrite Forall_forall in Ha. specialize (Ha b Hb). unfold str_le in Ha.
  destruct (String.compare a b) eqn:E; [|done|done].
  apply String.compare_eq_iff in E. by subst b.
Qed.

(** The answer of a choice function over the keys of [d], said without its
    helpers. *)
Lemma choices_in_order (d : gmap string json) (fallback : item) :
  (d = ∅ /\ sorted_or (items_of (map_to_list d).*1) fallback = [fallback]) \/
  (d <> ∅ /\
   exists ks : list string,
     keys_in_order d ks /\
     sorted_or (items_of (map_to_list d).*1) fallback = (fun k => (k, k, "")) <$> ks).
Proof.
  destruct (sorted_or_choices d fallback) as [[He Hr]|[Hne (ks & Hr & Hs & Hnd & Hks)]].
  - by left.
  - right. split; [done|]. exists ks. split; [|done].
    split; [by apply strictly_increasing|done].
Qed.

Lemma sentinel_is_no_key_item (k : string) :
  NO_DATA <> (k, k, "") /\ NOT_APPLICABLE <> (k, k, "").
Proof.
  split; unfold NO_DATA, NOT_APPLICABLE; intros H; inversion H; subst; discriminate.
Qed.

(** C7, as stated, fails: the sentinel is not distinct from every real key.
    In a dataset with a manufacturer named [NONE] that key is listed with
    the identifier the sentinel of the empty dataset has, and the model list
    treats its selection as no selection: it answers "N/A" although the
    manufacturer has a model. *)
Lemma sentinel_key_counterexample :
  exists (x : item) (ms : gmap string json),
    get_manufacturers (session (JDict ∅) "" "" "") = Ok [x] /\
    x.1.1 = "NONE" /\
    none_named !! "NONE" = Some (JDict ms) /\
    get_manufacturers (session (JDict none_named) "" "" "") = Ok [("NONE", "NONE", "")] /\
    is_Some (ms !! "X1") /\
    get_models (session (JDict none_named) "NONE" "" "") = Ok [("NONE", "N/A", "")].
Proof.
  eexists _, _. split; [reflexivity|]. split; [reflexivity|].
  split; [reflexivity|]. split; [reflexivity|]. split; [|reflexivity].
  eexists. reflexivity.
Qed.

(** C7, amended: for a dataset that is a mapping, [get_manufacturers]
    answers the single item [("NONE", "No Data Found", ...)] when the mapping
    is empty, and otherwise the items [(k, k, "")] of all manufacturer keys
    [k], in strictly increasing string order (sorted, no duplicates).  The
    sentinel item is in the answer exactly when the mapping is empty, and it
    is the item of no key.  An entry with the sentinel's identifier [NONE]
    is listed for a mapping that is not empty exactly when [NONE] is one of
    its keys: the identifier is distinct from the real keys of every dataset
    without a manufacturer of that name. *)
Theorem get_manufacturers_choices (d : gmap string json) (w : world) :
  SENSOR_DATA w = JDict d ->
  let sentinel : item :=
    ("NONE", "No Data Found", "Please download the database in Add-on Preferences.") in
  (d = ∅ -> get_manufacturers w = Ok [sentinel]) /\
  (d <> ∅ ->
   exists ks : list string,
     keys_in_order d ks /\
     get_manufacturers w = Ok ((fun k => (k, k, "")) <$> ks)) /\
  (forall k : string, sentinel <> (k, k, "")) /\
  (forall r, get_manufacturers w = Ok r -> (sentinel ∈ r <-> d = ∅)) /\
  (forall r, get_manufacturers w = Ok r -> d <> ∅ ->
     ((exists x : item, x ∈ r /\ x.1.1 = "NONE") <-> is_Some (d !! "NONE"))).
Proof.
  intros HD sentinel. unfold get_manufacturers. rewrite HD. simpl.
  assert (forall k : string, sentinel <> (k, k, "")) as Hitem.
  { intros k H. inversion H; subst; discriminate. }
  destruct (choices_in_order d NO_DATA) as [[He Hr]|[Hne (ks & Hks & Hr)]];
    rewrite Hr; split_and!; try done.
  - intros r [= <-]. split; [done|]. intros _. by apply list_elem_of_singleton.
  - eauto.
  - intros r [= <-]. split; [|done].
    intros (k & Hk & _)%list_elem_of_fmap. by destruct (Hitem k).
  - intros r [= <-] _. split.
    + intros (x & (k & -> & Hk)%list_elem_of_fmap & Hx). simpl in Hx. subst k.
      by apply Hks.
    + intros Hin. exists ("NONE", "NONE", ""). split; [|done].
      apply list_elem_of_fmap. exists "NONE". split; [done|]. by apply Hks.
Qed.

Lemma get_manufacturers_choices_witness :
  exists ks : list string,
    keys_in_order catalogue_manufacturers ks /\
    get_manufacturers (session catalogue "" "" "") = Ok ((fun k => (k, k, "")) <$> ks).
Proof.
  apply (get_manufacturers_choices catalogue_manufacturers (session catalogue "" "" "")).
  - reflexivity.
  - apply insert_non_empty.
Defined.

(** The manufacturers of the catalogue, as Python orders them: capitals come
    before small letters. *)
Example get_manufacturers_catalogue :
  get_manufacturers (session catalogue "" "" "")
  = Ok [("Acme", "Acme", ""); ("Zeiss", "Zeiss", ""); ("arri", "arri", "")].
Proof. reflexivity. Qed.

Lemma not_truthy_str (s : string) : negb (truthy (JStr s)) = true <-> s = "".
Proof. destruct s; simpl; split; (done || discriminate). Qed.

Lemma unset_or_sentinel (s : string) :
  negb (truthy (JStr s)) || String.eqb s "NONE" = false <-> s <> "" /\ s <> "NONE".
Proof.
  rewrite orb_false_iff, String.eqb_neq.
  split; intros [H1 H2]; (split; [|done]).
  - intros ->. discriminate.
  - destruct s; [done|reflexivity].
Qed.

Lemma get_models_eq (d : gmap string json) (w : world) :
  SENSOR_DATA w = JDict d ->
  get_models w =
  let m := manufacturers (csd_sensor_properties w) in
  if negb (truthy (JStr m)) || String.eqb m "NONE" then Ok [NOT_APPLICABLE]
  else match d !! m with
       | None => Ok [NOT_APPLICABLE]
       | Some (JDict ms) => Ok (sorted_or (items_of (map_to_list ms).*1) NOT_APPLICABLE)
       | Some _ => Raise AttributeError
       end.
Proof.
  intros HD. unfold get_models. rewrite HD. simpl.
  destruct (_ || _); [done|].
  destruct (d !! _) as [[]|]; simpl; done.
Qed.

Lemma get_formats_eq (d : gmap string json) (w : world) :
  SENSOR_DATA w = JDict d ->
  get_formats w =
  let m := manufacturers (csd_sensor_properties w) in
  let mo := models (csd_sensor_properties w) in
  if negb (truthy (JStr m)) || negb (truthy (JStr mo))
     || String.eqb m "NONE" || String.eqb mo "NONE"
  then Ok [NOT_APPLICABLE]
  else match d !! m with
       | None => Ok [NOT_APPLICABLE]
       | Some (JDict ms) =>
           match ms !! mo with
           | None => Ok [NOT_APPLICABLE]
           | Some (JDict rec) =>
               match rec !! "sensor dimensions" with
               | None => Ok [NOT_APPLICABLE]
               | Some (JDict fs) =>
                   Ok (sorted_or (items_of (map_to_list fs).*1) NOT_APPLICABLE)
               | Some _ => Raise AttributeError
               end
           | Some _ => Raise AttributeError
           end
       | Some _ => Raise AttributeError
       end.
Proof.
  intros HD. unfold get_formats. rewrite HD. simpl.
  destruct (_ || _); [done|].
  destruct (d !! _) as [[| | | | | |ms]|]; simpl; try done.
  destruct (ms !! _) as [[| | | | | |rec]|]; simpl; try done.
  destruct (rec !! _) as [[]|]; simpl; done.
Qed.

(** C6: for a dataset that is a mapping [d], with [m] and [mo] the selected
    manufacturer and model: [get_models] answers the single item
    [("NONE", "N/A", "")] when [m] is unset, the sentinel or no key of [d],
    and otherwise the choice list of the model mapping under [m]: the items
    [(k, k, "")] of its keys in strictly increasing string order, or the
    "N/A" item when it has none; [get_formats] answers "N/A" when [m] or [mo]
    is unset, the sentinel or absent, and otherwise the choice list of the
    model record's [sensor dimensions] mapping ("N/A" when the record has
    none). *)
Theorem cascading_choices (d : gmap string json) (w : world) :
  SENSOR_DATA w = JDict d ->
  let m := manufacturers (csd_sensor_properties w) in
  let mo := models (csd_sensor_properties w) in
  let not_applicable : list item := [("NONE", "N/A", "")] in
  let choices (keys : gmap string json) (r : res (list item)) :=
    (keys = ∅ /\ r = Ok not_applicable) \/
    (keys <> ∅ /\
     exists ks : list string,
       keys_in_order keys ks /\ r = Ok ((fun k => (k, k, "")) <$> ks)) in
  (m = "" \/ m = "NONE" \/ d !! m = None -> get_models w = Ok not_applicable) /\
  (forall ms, m <> "" -> m <> "NONE" -> d !! m = Some (JDict ms) ->
     choices ms (get_models w)) /\
  (m = "" \/ m = "NONE" \/ d !! m = None \/ mo = "" \/ mo = "NONE" \/
     (exists ms, d !! m = Some (JDict ms) /\ ms !! mo = None) ->
   get_formats w = Ok not_applicable) /\
  (forall ms rec, m <> "" -> m <> "NONE" -> mo <> "" -> mo <> "NONE" ->
     d !! m = Some (JDict ms) -> ms !! mo = Some (JDict rec) ->
     (rec !! "sensor dimensions" = None -> get_formats w = Ok not_applicable) /\
     (forall fs, rec !! "sensor dimensions" = Some (JDict fs) ->
        choices fs (get_formats w))).
Proof.
  intros HD m mo not_applicable choices.
  rewrite (get_models_eq d w HD), (get_formats_eq d w HD). cbv zeta.
  fold m mo. unfold choices, not_applicable. split_and!.
  - intros [->|[->|Hm]]; [done|by destruct (negb _)|].
    rewrite Hm. by destruct (_ || _).
  - intros ms Hm1 Hm2 Hm.
    rewrite (proj2 (unset_or_sentinel m)), Hm by done.
    destruct (choices_in_order ms NOT_APPLICABLE) as [[He Hr]|[Hne (ks & Hks & Hr)]];
      rewrite Hr; [by left|right; eauto].
  - intros H.
    destruct (negb (truthy (JStr m)) || negb (truthy (JStr mo))
              || String.eqb m "NONE" || String.eqb mo "NONE") eqn:E; [done|].
    rewrite !orb_false_iff, !String.eqb_neq in E.
    destruct E as [[[E1 E2] E3] E4].
    destruct H as [->|[->|[Hm|[->|[->|(ms & Hm & Hmo)]]]]]; try done.
    + by rewrite Hm.
    + by rewrite Hm, Hmo.
  - intros ms rec Hm1 Hm2 Hmo1 Hmo2 Hm Hmo.
    assert (negb (truthy (JStr m)) || negb (truthy (JStr mo))
            || String.eqb m "NONE" || String.eqb mo "NONE" = false) as ->.
    { rewrite !orb_false_iff, !String.eqb_neq. split_and!; try done.
      - by destruct m.
      - by destruct mo. }
    rewrite Hm, Hmo. split.
    + by intros ->.
    + intros fs ->.
      destruct (choices_in_order fs NOT_APPLICABLE) as [[He Hr]|[Hne (ks & Hks & Hr)]];
        rewrite Hr; [by left|right; eauto].
Qed.

Lemma cascading_choices_witness :
  exists ks : list string,
    keys_in_order x1_two_formats ks /\
    get_formats (session catalogue "Acme" "X1" "") = Ok ((fun k => (k, k, "")) <$> ks).
Proof.
  pose proof (cascading_choices catalogue_manufacturers
                (session catalogue "Acme" "X1" "") eq_refl) as (_ & _ & _ & H).
  destruct (H catalogue_models x1_two_formats_record) as [_ Hformats];
    try discriminate; try reflexivity.
  destruct (Hformats x1_two_formats eq_refl) as [[He _]|[_ Hr]]; [|exact Hr].
  destruct (insert_non_empty _ _ _ He).
Defined.

(** The models and the formats of the catalogue, and the model without
    formats. *)
Example get_models_catalogue :
  get_models (session catalogue "Acme" "" "") = Ok [("X1", "X1", ""); ("X2", "X2", "")] /\
  get_formats (session catalogue "Acme" "X1" "")
  = Ok [("Full Frame", "Full Frame", ""); ("Super 35", "Super 35", "")] /\
  get_formats (session catalogue "Acme" "X2" "") = Ok [("NONE", "N/A", "")] /\
  get_models (session catalogue "Zeiss" "" "") = Ok [("NONE", "N/A", "")].
Proof. split_and!; reflexivity. Qed.

(** ** The apply operators, case by case *)

Lemma ApplySensor_execute_eq (w : world) :
  CSD_OT_ApplySensor_execute w =
  match format_field w "mm" with
  | Ok (JDict r) =>
      let width := default JNull (r !! "width") in
      let height := default JNull (r !! "height") in
      if truthy width && truthy height then
        match camera w with
        | Some cam_data =>
            let fit := <["sensor_fit" := JStr "HORIZONTAL"]> cam_data in
            match host_refuses w "sensor_fit" (JStr "HORIZONTAL") with
            | Some x => (Raise (refusal_exn x), w)
            | None =>
                match host_refuses w "sensor_width" width with
                | Some x => (Raise (refusal_exn x), set_camera (Some fit) w)
                | None =>
                    match host_refuses w "sensor_height" height with
                    | Some x =>
                        (Raise (refusal_exn x),
                         set_camera (Some (<["sensor_width" := width]> fit)) w)
                    | None => (Ok FINISHED, sensor_applied width height cam_data w)
                    end
                end
            end
        | None => (Raise AttributeError, w)
        end
      else (Ok CANCELLED, add_report WARNING [Text "Selected format has no sensor data."] w)
  | Ok _ => (Raise AttributeError, w)
  | Raise KeyError =>
      (Ok CANCELLED,
       add_report ERROR [Text "Could not apply sensor settings. Data not found."] w)
  | Raise e => (Raise e, w)
  end.
Proof.
  unfold CSD_OT_ApplySensor_execute, try_except, mbind, M_bind, eval.
  destruct (format_field w "mm") as [[]|[]]; try reflexivity.
  simpl.
  destruct (truthy (default JNull (d !! "width")) && truthy (default JNull (d !! "height")));
    [|reflexivity].
  unfold set_camera_attr. destruct (camera w) as [cam_data|]; [|reflexivity].
  destruct (host_refuses w "sensor_fit" (JStr "HORIZONTAL")) as [[]|]; try reflexivity.
  simpl.
  destruct (host_refuses w "sensor_width" (default JNull (d !! "width"))) as [[]|];
    try reflexivity.
  simpl.
  destruct (host_refuses w "sensor_height" (default JNull (d !! "height"))) as [[]|];
    reflexivity.
Qed.

Lemma ApplyResolution_execute_eq (w : world) :
  CSD_OT_ApplyResolution_execute w =
  match format_field w "resolution" with
  | Ok (JDict r) =>
      let width := default JNull (r !! "width") in
      let height := default JNull (r !! "height") in
      if isinstance_int width && isinstance_int height
      then
        match host_refuses w "resolution_x" width with
        | Some x => (Raise (refusal_exn x), w)
        | None =>
            match host_refuses w "resolution_y" height with
            | Some x =>
                (Raise (refusal_exn x),
                 set_render (<["resolution_x" := width]> (render w)) w)
            | None => (Ok FINISHED, resolution_applied width height w)
            end
        end
      else (Ok CANCELLED,
            add_report WARNING [Text "Selected format has no resolution data."] w)
  | Ok _ => (Raise AttributeError, w)
  | Raise KeyError =>
      (Ok CANCELLED,
       add_report ERROR [Text "Could not apply resolution settings. Data not found."] w)
  | Raise e => (Raise e, w)
  end.
Proof.
  unfold CSD_OT_ApplyResolution_execute, try_except, mbind, M_bind, eval.
  destruct (format_field w "resolution") as [[]|[]]; try reflexivity.
  simpl.
  destruct (isinstance_int (default JNull (d !! "width"))
            && isinstance_int (default JNull (d !! "height"))); [|reflexivity].
  unfold set_render_attr.
  destruct (host_refuses w "resolution_x" (default JNull (d !! "width"))) as [[]|];
    try reflexivity.
  simpl.
  destruct (host_refuses w "resolution_y" (default JNull (d !! "height"))) as [[]|];
    reflexivity.
Qed.

Lemma ApplyResolution_poll_eq (w : world) :
  CSD_OT_ApplyResolution_poll w =
  let f := formats (csd_sensor_properties w) in
  if negb (truthy (JStr f)) || String.eqb f "NONE" then (Ok false, w)
  else
    match format_field w "resolution" with
    | Ok (JDict r) =>
        (Ok (isinstance_int (default JNull (r !! "width"))
             && isinstance_int (default JNull (r !! "height"))), w)
    | Ok _ => (Raise AttributeError, w)
    | Raise e => if is_KeyError_or_TypeError e then (Ok false, w) else (Raise e, w)
    end.
Proof.
  unfold CSD_OT_ApplyResolution_poll, try_except, mbind, M_bind, eval. simpl.
  destruct (_ || _); [reflexivity|].
  destruct (format_field w "resolution") as [[]|e]; try reflexivity.
Qed.

(** A chain of subscriptions raises nothing but [KeyError] and [TypeError]. *)
Lemma py_getitem_raises (r : res json) (k : string) (e : exn) :
  (forall e', r = Raise e' -> e' = KeyError \/ e' = TypeError) ->
  r.[k] = Raise e -> e = KeyError \/ e = TypeError.
Proof.
  intros Hr. destruct r as [v|e']; simpl.
  - destruct v; simpl; try (intros [= <-]; by right).
    destruct (d !! k); [done|]. intros [= <-]. by left.
  - intros [= <-]. by apply Hr.
Qed.

Lemma format_field_raises (w : world) (field : string) (e : exn) :
  format_field w field = Raise e -> e = KeyError \/ e = TypeError.
Proof.
  unfold format_field, format_record.
  repeat (apply py_getitem_raises; intros ?). done.
Qed.

Lemma format_record_session (w : world) :
  format_record
    (session (SENSOR_DATA w) (manufacturers (csd_sensor_properties w))
       (models (csd_sensor_properties w)) (formats (csd_sensor_properties w)))
  = format_record w.
Proof. reflexivity. Qed.

Lemma written_sensor (width height : json) (cam_data : object) :
  written (<["sensor_height" := height]> (<["sensor_width" := width]>
             (<["sensor_fit" := JStr "HORIZONTAL"]> cam_data)))
    "sensor_width" "sensor_height" = Some (width, height).
Proof. unfold written. by simplify_map_eq. Qed.

Lemma written_resolution (width height : json) (o : object) :
  written (<["resolution_y" := height]> (<["resolution_x" := width]> o))
    "resolution_x" "resolution_y" = Some (width, height).
Proof. unfold written. by simplify_map_eq. Qed.

Lemma resolveSensorDimensions_eq (D : json) (m mo f : string) :
  resolveSensorDimensions D m mo f =
  match format_field (session D m mo f) "mm" with
  | Ok (JDict r) =>
      let width := default JNull (r !! "width") in
      let height := default JNull (r !! "height") in
      if truthy width && truthy height then Ok (Some (width, height)) else Ok None
  | Ok _ => Raise AttributeError
  | Raise KeyError => Ok None
  | Raise e => Raise e
  end.
Proof.
  unfold resolveSensorDimensions. rewrite ApplySensor_execute_eq.
  destruct (format_field _ "mm") as [[]|[]]; try reflexivity.
  cbv zeta. destruct (_ && _); [|reflexivity].
  simpl. by rewrite written_sensor.
Qed.

Lemma resolveResolution_eq (D : json) (m mo f : string) :
  resolveResolution D m mo f =
  if negb (truthy (JStr f)) || String.eqb f "NONE" then Ok None
  else
    match format_field (session D m mo f) "resolution" with
    | Ok (JDict r) =>
        let width := default JNull (r !! "width") in
        let height := default JNull (r !! "height") in
        if isinstance_int width && isinstance_int height
        then Ok (Some (width, height)) else Ok None
    | Ok _ => Raise AttributeError
    | Raise _ => Ok None
    end.
Proof.
  unfold resolveResolution, run_operator, mbind at 1, M_bind at 1.
  rewrite ApplyResolution_poll_eq. cbv zeta. simpl formats.
  destruct (_ || _); [reflexivity|].
  destruct (format_field _ "resolution") as [v|e] eqn:E.
  - destruct v; try reflexivity.
    destruct (_ && _) eqn:Hint; [|reflexivity].
    unfold mbind, M_bind. rewrite ApplyResolution_execute_eq, E. cbv zeta.
    rewrite Hint. simpl. by rewrite written_resolution.
  - apply format_field_raises in E as [-> | ->]; reflexivity.
Qed.

(** ** Resolution: the integer check *)

Lemma isinstance_int_inv (v : json) :
  isinstance_int v = true -> (exists n, v = JInt n) \/ (exists b, v = JBool b).
Proof. destruct v; try discriminate; eauto. Qed.

Lemma isinstance_int_default (o : option json) :
  isinstance_int (default JNull o) = true ->
  exists v, o = Some v /\ ((exists n, v = JInt n) \/ (exists b, v = JBool b)).
Proof.
  destruct o as [v|]; [|discriminate]. simpl. intros H.
  exists v. split; [done|]. by apply isinstance_int_inv.
Qed.

(** C1, as stated, fails: with [true] as the width, the pair is returned
    although the width is no integer of the dataset. *)
Lemma resolveResolution_bool_counterexample :
  let D := JDict (manufacturers_of (JBool true) (JInt 5464)) in
  ~ (forall w h : json,
       resolveResolution D "Acme" "X1" "Full Frame" = Ok (Some (w, h)) ->
       (exists n, w = JInt n) /\ (exists n, h = JInt n)).
Proof.
  intros D H.
  destruct (H (JBool true) (JInt 5464)) as [[n Hn] _]; [reflexivity|discriminate].
Qed.

(** C1, amended: [resolveResolution] returns a pair only when the resolution
    object has both fields and each is an instance of Python's [int], that is
    an integer or a boolean, and then it returns the two stored values
    themselves; when either field is missing or a float, it returns [None]. *)
Theorem resolveResolution_strict (D : json) (m mo f : string) :
  (forall w h : json,
     resolveResolution D m mo f = Ok (Some (w, h)) ->
     exists r : gmap string json,
       format_field (session D m mo f) "resolution" = Ok (JDict r) /\
       r !! "width" = Some w /\ r !! "height" = Some h /\
       ((exists n, w = JInt n) \/ (exists b, w = JBool b)) /\
       ((exists n, h = JInt n) \/ (exists b, h = JBool b))) /\
  (forall r : gmap string json,
     format_field (session D m mo f) "resolution" = Ok (JDict r) ->
     r !! "width" = None \/ (exists x, r !! "width" = Some (JFloat x)) \/
     r !! "height" = None \/ (exists x, r !! "height" = Some (JFloat x)) ->
     resolveResolution D m mo f = Ok None).
Proof.
  rewrite resolveResolution_eq. split.
  - intros w h. destruct (_ || _); [discriminate|].
    destruct (format_field _ _) as [[| | | | | |r]|]; try discriminate.
    cbv zeta.
    destruct (isinstance_int (default JNull (r !! "width"))) eqn:Hw; [|discriminate].
    destruct (isinstance_int (default JNull (r !! "height"))) eqn:Hh; [|discriminate].
    apply isinstance_int_default in Hw as (w' & Hw & Hwi).
    apply isinstance_int_default in Hh as (h' & Hh & Hhi).
    rewrite Hw, Hh. simpl. intros [= <- <-]. exists r. done.
  - intros r -> H. destruct (_ || _); [reflexivity|]. cbv zeta.
    destruct H as [->|[[x ->]|[->|[x ->]]]]; simpl; try reflexivity.
    all: by rewrite andb_false_r.
Qed.

Lemma resolveResolution_strict_witness :
  resolveResolution (JDict (manufacturers_of f8192_5 (JInt 5464)))
    "Acme" "X1" "Full Frame" = Ok None.
Proof.
  apply (proj2 (resolveResolution_strict
                  (JDict (manufacturers_of f8192_5 (JInt 5464)))
                  "Acme" "X1" "Full Frame")
           {[ "width" := f8192_5; "height" := JInt 5464 ]}).
  - reflexivity.
  - right. left. exists (S754_finite false 16385 (-1)). reflexivity.
Defined.

(** C10: a boolean passes the integer check of the resolution operator; when
    one field of the resolution object is a boolean and the other a boolean or
    an integer, the operator is enabled and applies the pair. *)
Theorem resolveResolution_bool (D : json) (m mo f : string)
    (r : gmap string json) (b : bool) (other : json) :
  f <> "" -> f <> "NONE" ->
  format_field (session D m mo f) "resolution" = Ok (JDict r) ->
  (exists n, other = JInt n) \/ (exists b', other = JBool b') ->
  isinstance_int (JBool b) = true /\
  (r !! "width" = Some (JBool b) -> r !! "height" = Some other ->
   CSD_OT_ApplyResolution_poll (session D m mo f) = (Ok true, session D m mo f) /\
   resolveResolution D m mo f = Ok (Some (JBool b, other))) /\
  (r !! "width" = Some other -> r !! "height" = Some (JBool b) ->
   CSD_OT_ApplyResolution_poll (session D m mo f) = (Ok true, session D m mo f) /\
   resolveResolution D m mo f = Ok (Some (other, JBool b))).
Proof.
  intros Hf1 Hf2 Hr Hother.
  assert (isinstance_int other = true) as Hi.
  { by destruct Hother as [[n ->]|[b' ->]]. }
  rewrite resolveResolution_eq, ApplyResolution_poll_eq. cbv zeta. simpl formats.
  rewrite (proj2 (unset_or_sentinel f)), Hr by done.
  split_and!; [done| |]; intros -> ->; simpl; by rewrite Hi.
Qed.

Lemma resolveResolution_bool_witness :
  resolveResolution (JDict (manufacturers_of (JBool true) (JInt 5464)))
    "Acme" "X1" "Full Frame" = Ok (Some (JBool true, JInt 5464)).
Proof.
  pose proof (resolveResolution_bool
                (JDict (manufacturers_of (JBool true) (JInt 5464)))
                "Acme" "X1" "Full Frame"
                {[ "width" := JBool true; "height" := JInt 5464 ]}
                true (JInt 5464)) as H.
  apply H; try discriminate; try reflexivity.
  left. by exists 5464%Z.
Defined.

(** ** Sensor dimensions: the truth test *)

Lemma truthy_number :
  (forall n : Z, truthy (JInt n) = true <-> n <> 0%Z) /\
  (forall x : spec_float, truthy (JFloat x) = true <-> forall s, x <> S754_zero s).
Proof.
  split.
  - intros n. simpl. rewrite negb_true_iff. apply Z.eqb_neq.
  - intros x. destruct x; simpl; split; try done.
    intros H. by destruct (H s).
Qed.

(** C4, as stated, fails: the [mm] object of the format has both fields, the
    width being 0.0, and nothing is returned. *)
Lemma resolveSensorDimensions_zero_counterexample :
  ~ (forall (r : gmap string json) (w h : json),
       format_field (session acme_zero_width "Acme" "X1" "Full Frame") "mm"
         = Ok (JDict r) ->
       r !! "width" = Some w -> r !! "height" = Some h ->
       resolveSensorDimensions acme_zero_width "Acme" "X1" "Full Frame"
         = Ok (Some (w, h))).
Proof.
  intros H.
  specialize (H {[ "width" := JFloat (S754_zero false);
                   "height" := JFloat (S754_finite false 3 3) ]}
                (JFloat (S754_zero false)) (JFloat (S754_finite false 3 3))
                eq_refl eq_refl eq_refl).
  discriminate H.
Qed.

(** C4, amended: [resolveSensorDimensions] returns the stored width/height
    pair whenever the [mm] object is present and both fields are present and
    true in Python's truth test (for a number: not zero); it returns [None]
    when a field is missing or false in that test, and when the [mm] object or
    any level above it is missing. *)
Theorem resolveSensorDimensions_truthy (D : json) (m mo f : string) :
  (forall (r : gmap string json) (w h : json),
     format_field (session D m mo f) "mm" = Ok (JDict r) ->
     r !! "width" = Some w -> r !! "height" = Some h ->
     truthy w = true -> truthy h = true ->
     resolveSensorDimensions D m mo f = Ok (Some (w, h))) /\
  (forall r : gmap string json,
     format_field (session D m mo f) "mm" = Ok (JDict r) ->
     r !! "width" = None \/ r !! "height" = None \/
     (exists w, r !! "width" = Some w /\ truthy w = false) \/
     (exists h, r !! "height" = Some h /\ truthy h = false) ->
     resolveSensorDimensions D m mo f = Ok None) /\
  (format_field (session D m mo f) "mm" = Raise KeyError ->
   resolveSensorDimensions D m mo f = Ok None) /\
  (forall n : Z, truthy (JInt n) = true <-> n <> 0%Z) /\
  (forall x : spec_float, truthy (JFloat x) = true <-> forall s, x <> S754_zero s).
Proof.
  rewrite resolveSensorDimensions_eq. split_and!; try apply truthy_number.
  - intros r w h -> Hw Hh Tw Th. cbv zeta. rewrite Hw, Hh. simpl.
    by rewrite Tw, Th.
  - intros r -> H. cbv zeta.
    destruct H as [->|[->|[(w & -> & Tw)|(h & -> & Th)]]]; simpl.
    + reflexivity.
    + by rewrite andb_false_r.
    + by rewrite Tw.
    + by rewrite Th, andb_false_r.
  - by intros ->.
Qed.

Lemma resolveSensorDimensions_truthy_witness :
  resolveSensorDimensions acme "Acme" "X1" "Full Frame"
  = Ok (Some (JFloat (S754_finite false 9 2), JFloat (S754_finite false 3 3))).
Proof.
  apply (proj1 (resolveSensorDimensions_truthy acme "Acme" "X1" "Full Frame")
           {[ "width" := JFloat (S754_finite false 9 2);
              "height" := JFloat (S754_finite false 3 3) ]});
    reflexivity.
Defined.

(** ** Lookup misses *)

Lemma absent_KeyError (D : json) (m mo f : string) :
  absent D m mo f -> format_record (session D m mo f) = Raise KeyError.
Proof.
  unfold format_record. simpl.
  destruct 1 as [d m mo f Hm|d ms m mo f Hm Hmo|d ms rec m mo f Hm Hmo Hsd
                |d ms rec fs m mo f Hm Hmo Hsd Hf]; simpl; rewrite Hm; simpl;
    [done|rewrite Hmo; simpl..]; [done|rewrite Hsd; simpl..]; [done|].
  by rewrite Hf.
Qed.

Lemma KeyError_absent (D : json) (m mo f : string) :
  format_record (session D m mo f) = Raise KeyError -> absent D m mo f.
Proof.
  unfold format_record. simpl.
  destruct D as [| | | | | |d]; try discriminate. simpl.
  destruct (d !! m) as [v|] eqn:Hm; [|intros _; by apply absent_manufacturer].
  destruct v as [| | | | | |ms]; try discriminate. simpl.
  destruct (ms !! mo) as [v|] eqn:Hmo; [|intros _; by eapply absent_model].
  destruct v as [| | | | | |rec]; try discriminate. simpl.
  destruct (rec !! "sensor dimensions") as [v|] eqn:Hsd;
    [|intros _; by eapply absent_dimensions].
  destruct v as [| | | | | |fs]; try discriminate. simpl.
  destruct (fs !! f) as [v|] eqn:Hf; [discriminate|].
  intros _. by eapply absent_format.
Qed.

Lemma absent_field (w : world) (field : string) :
  absent (SENSOR_DATA w) (manufacturers (csd_sensor_properties w))
    (models (csd_sensor_properties w)) (formats (csd_sensor_properties w)) ->
  format_field w field = Raise KeyError.
Proof.
  intros H. apply absent_KeyError in H. rewrite format_record_session in H.
  unfold format_field. by rewrite H.
Qed.

(** C5, as stated, fails: the format "Super 35" is absent from the example
    dataset, and the sensor operator reports an error. *)
Lemma absent_selection_counterexample :
  absent acme "Acme" "X1" "Super 35" /\
  reports (CSD_OT_ApplySensor_execute (session acme "Acme" "X1" "Super 35")).2
  = [(ERROR, [Text "Could not apply sensor settings. Data not found."])].
Proof.
  split; [|reflexivity].
  apply (absent_format _ (acme_models (JInt 8192) (JInt 5464))
           (x1_record (JInt 8192) (JInt 5464)) (x1_formats (JInt 8192) (JInt 5464)));
    reflexivity.
Qed.

(** C5, amended: when the selection is absent from the dataset at any level,
    both resolve queries return [None] and no exception is raised; [execute]
    of either operator reports the miss as an error message and cancels,
    leaving everything else as it was, and [poll] of the resolution operator
    answers false without a message. *)
Theorem absent_selection_cancels (w : world) :
  let D := SENSOR_DATA w in
  let m := manufacturers (csd_sensor_properties w) in
  let mo := models (csd_sensor_properties w) in
  let f := formats (csd_sensor_properties w) in
  absent D m mo f ->
  resolveSensorDimensions D m mo f = Ok None /\
  resolveResolution D m mo f = Ok None /\
  CSD_OT_ApplySensor_execute w
  = (Ok CANCELLED,
     add_report ERROR [Text "Could not apply sensor settings. Data not found."] w) /\
  CSD_OT_ApplyResolution_poll w = (Ok false, w) /\
  CSD_OT_ApplyResolution_execute w
  = (Ok CANCELLED,
     add_report ERROR [Text "Could not apply resolution settings. Data not found."] w).
Proof.
  intros D m mo f Habs.
  pose proof (absent_field w "mm" Habs) as Hmm.
  pose proof (absent_field w "resolution" Habs) as Hres.
  pose proof (absent_field (session D m mo f) "mm" Habs) as Hmm'.
  pose proof (absent_field (session D m mo f) "resolution" Habs) as Hres'.
  rewrite resolveSensorDimensions_eq, resolveResolution_eq, ApplySensor_execute_eq,
    ApplyResolution_poll_eq, ApplyResolution_execute_eq.
  rewrite Hmm, Hres, Hmm', Hres'. cbv zeta. fold f.
  split_and!; try reflexivity; by destruct (_ || _).
Qed.

Lemma absent_selection_cancels_witness :
  resolveSensorDimensions acme "Acme" "X1" "Super 35" = Ok None.
Proof.
  apply (absent_selection_cancels (session acme "Acme" "X1" "Super 35")).
  apply (absent_format _ (acme_models (JInt 8192) (JInt 5464))
           (x1_record (JInt 8192) (JInt 5464)) (x1_formats (JInt 8192) (JInt 5464)));
    reflexivity.
Defined.

(** ** What a successful apply writes *)

(** C9, as stated, fails: on a camera whose [sensor_fit] is [AUTO], a
    successful apply of the sensor also changes [sensor_fit]. *)
Lemma sensor_fit_counterexample :
  let w := set_camera (Some {[ "sensor_fit" := JStr "AUTO" ]})
             (session acme "Acme" "X1" "Full Frame") in
  exists (w' : world) (cam' : object),
    CSD_OT_ApplySensor_execute w = (Ok FINISHED, w') /\
    camera w' = Some cam' /\
    cam' !! "sensor_fit" = Some (JStr "HORIZONTAL") /\
    cam' !! "sensor_fit" <> ({[ "sensor_fit" := JStr "AUTO" ]} : object) !! "sensor_fit".
Proof.
  intros w. eexists _, _. split; [reflexivity|].
  split; [reflexivity|]. split; [reflexivity|]. discriminate.
Qed.

(** C9, amended: a successful apply of the sensor stores the dataset's [mm]
    width and height in [sensor_width] and [sensor_height] of the camera and
    sets its [sensor_fit] to [HORIZONTAL]; a successful apply of the
    resolution stores the dataset's resolution width and height, each an
    instance of [int], in [resolution_x] and [resolution_y] of the render
    settings.  No other attribute of the camera or of the render settings
    changes, and each operator leaves the other object alone. *)
Theorem apply_writes (w w' : world) :
  (CSD_OT_ApplySensor_execute w = (Ok FINISHED, w') ->
   exists (r cam_data cam' : object) (width height : json),
     format_field w "mm" = Ok (JDict r) /\
     r !! "width" = Some width /\ r !! "height" = Some height /\
     camera w = Some cam_data /\ camera w' = Some cam' /\
     cam' !! "sensor_width" = Some width /\
     cam' !! "sensor_height" = Some height /\
     cam' !! "sensor_fit" = Some (JStr "HORIZONTAL") /\
     (forall name : string,
        name <> "sensor_fit" -> name <> "sensor_width" -> name <> "sensor_height" ->
        cam' !! name = cam_data !! name) /\
     render w' = render w) /\
  (CSD_OT_ApplyResolution_execute w = (Ok FINISHED, w') ->
   exists (r : object) (width height : json),
     format_field w "resolution" = Ok (JDict r) /\
     r !! "width" = Some width /\ r !! "height" = Some height /\
     ((exists n, width = JInt n) \/ (exists b, width = JBool b)) /\
     ((exists n, height = JInt n) \/ (exists b, height = JBool b)) /\
     render w' !! "resolution_x" = Some width /\
     render w' !! "resolution_y" = Some height /\
     (forall name : string,
        name <> "resolution_x" -> name <> "resolution_y" ->
        render w' !! name = render w !! name) /\
     camera w' = camera w).
Proof.
  split.
  - rewrite ApplySensor_execute_eq.
    destruct (format_field w "mm") as [[| | | | | |r]|[]]; try discriminate.
    cbv zeta.
    destruct (truthy (default JNull (r !! "width"))) eqn:Tw; [|discriminate].
    destruct (truthy (default JNull (r !! "height"))) eqn:Th; [|discriminate].
    simpl. destruct (camera w) as [cam_data|] eqn:Hcam; [|discriminate].
    destruct (host_refuses w "sensor_fit" _); [discriminate|].
    destruct (host_refuses w "sensor_width" _); [discriminate|].
    destruct (host_refuses w "sensor_height" _); [discriminate|].
    intros [= <-].
    destruct (r !! "width") as [width|] eqn:Hw; [|discriminate].
    destruct (r !! "height") as [height|] eqn:Hh; [|discriminate].
    eexists r, cam_data, _, width, height.
    split_and!; try done; simpl; try by simplify_map_eq.
    intros name H1 H2 H3. by rewrite !lookup_insert_ne.
  - rewrite ApplyResolution_execute_eq.
    destruct (format_field w "resolution") as [[| | | | | |r]|[]]; try discriminate.
    cbv zeta.
    destruct (isinstance_int (default JNull (r !! "width"))) eqn:Hw; [|discriminate].
    destruct (isinstance_int (default JNull (r !! "height"))) eqn:Hh; [|discriminate].
    apply isinstance_int_default in Hw as (width & Hw & Hwi).
    apply isinstance_int_default in Hh as (height & Hh & Hhi).
    rewrite Hw, Hh. simpl.
    destruct (host_refuses w "resolution_x" _); [discriminate|].
    destruct (host_refuses w "resolution_y" _); [discriminate|].
    intros [= <-].
    exists r, width, height.
    split_and!; try done; simpl; try by simplify_map_eq.
    intros name H1 H2. by rewrite !lookup_insert_ne.
Qed.

Lemma apply_writes_witness :
  exists (r : object) (width height : json),
    format_field (session acme "Acme" "X1" "Full Frame") "resolution" = Ok (JDict r) /\
    r !! "width" = Some width /\ r !! "height" = Some height /\
    ((exists n, width = JInt n) \/ (exists b, width = JBool b)) /\
    ((exists n, height = JInt n) \/ (exists b, height = JBool b)) /\
    render (resolution_applied (JInt 8192) (JInt 5464)
              (session acme "Acme" "X1" "Full Frame")) !! "resolution_x" = Some width /\
    render (resolution_applied (JInt 8192) (JInt 5464)
              (session acme "Acme" "X1" "Full Frame")) !! "resolution_y" = Some height /\
    (forall name : string,
       name <> "resolution_x" -> name <> "resolution_y" ->
       render (resolution_applied (JInt 8192) (JInt 5464)
                 (session acme "Acme" "X1" "Full Frame")) !! name
       = render (session acme "Acme" "X1" "Full Frame") !! name) /\
    camera (resolution_applied (JInt 8192) (JInt 5464)
              (session acme "Acme" "X1" "Full Frame"))
    = camera (session acme "Acme" "X1" "Full Frame").
Proof.
  apply (proj2 (apply_writes (session acme "Acme" "X1" "Full Frame")
                  (resolution_applied (JInt 8192) (JInt 5464)
                     (session acme "Acme" "X1" "Full Frame")))).
  reflexivity.
Defined.

(** ** The dataset store *)

Section StoreFacts.

Variable json_loads : list Byte.byte -> res json.
Variable env : environment.

Lemma load_sensor_data_eq (w : world) :
  load_sensor_data json_loads env w =
  match sensors_json w with
  | None =>
      (Ok tt, add_stdout "Camera Sensor Database: sensors.json not found."
                (set_SENSOR_DATA (JDict ∅) w))
  | Some content =>
      if can_open_r env then
        match json_loads content with
        | Ok data =>
            (Ok tt, add_stdout "Camera Sensor Database: Loaded sensor data."
                      (set_SENSOR_DATA data w))
        | Raise e =>
            if bool_decide (e = JSONDecodeError)
            then (Ok tt,
                  add_stdout "Camera Sensor Database: Error reading sensors.json file."
                    (set_SENSOR_DATA (JDict ∅) w))
            else (Raise e, w)
        end
      else (Raise OSError, w)
  end.
Proof.
  unfold load_sensor_data, try_except, mbind at 1, M_bind at 1, eval at 1.
  destruct (sensors_json w) as [content|]; [|reflexivity].
  unfold mbind, M_bind, eval. simpl.
  destruct (can_open_r env); simpl; [|reflexivity].
  destruct (json_loads content) as [data|e]; reflexivity.
Qed.

(** Where [load_sensor_data] raises, the dataset in memory is the one it
    found. *)
Lemma load_sensor_data_raise (w w' : world) (e : exn) :
  load_sensor_data json_loads env w = (Raise e, w') -> w' = w.
Proof.
  rewrite load_sensor_data_eq.
  destruct (sensors_json w); [|discriminate].
  destruct (can_open_r env); [|by intros [= _ <-]].
  destruct (json_loads _); [discriminate|].
  case_bool_decide; [discriminate|]. by intros [= _ <-].
Qed.

Ltac run_update :=
  unfold CSD_OT_UpdateSensors_execute, try_except;
  unfold mbind, M_bind, eval, report, modify, open_for_writing, write_file, set_pref,
    py_open.

(** C8: when the download of [body] succeeds and [body] is well formed (the
    reader gives the value [v]), the operator leaves [body] in the persisted
    file and [v] in memory, and a further [load_sensor_data] gives [v] again. *)
Theorem replace_then_load (w w' : world) (body : list Byte.byte) (v : json) :
  urlopen_SENSORS_URL env = Ok (Ok body) ->
  json_loads body = Ok v ->
  CSD_OT_UpdateSensors_execute json_loads env w = (Ok FINISHED, w') ->
  sensors_json w' = Some body /\ SENSOR_DATA w' = v /\
  exists w'', load_sensor_data json_loads env w' = (Ok tt, w'') /\ SENSOR_DATA w'' = v.
Proof.
  intros Hurl Hv. run_update.
  destruct (online_access env); [|discriminate]. cbn [negb].
  rewrite Hurl.
  destruct (can_open_wb env); [|discriminate].
  destruct (disk_room env) as [room|];
    [destruct (room <? length body)%nat; [discriminate|]|];
    (destruct (urlopen_API_URL env) as [[raw|e]|e]; try (simpl; discriminate);
     destruct (json_loads raw) as [data|e]; try (simpl; discriminate);
     destruct (py_get data "sha") as [sha|e]; try (simpl; discriminate);
     destruct sha; try (simpl; discriminate);
     intros Hrun; simpl in Hrun; rewrite load_sensor_data_eq in Hrun; simpl in Hrun;
     destruct (can_open_r env) eqn:Hopen; try discriminate;
     rewrite Hv in Hrun; injection Hrun as <-;
     split_and!; try reflexivity;
     rewrite load_sensor_data_eq; simpl;
     rewrite Hopen, Hv; eexists; split; reflexivity).
Qed.

Ltac cancelled_early :=
  eexists _, _; split; [reflexivity|]; intros _; split; [reflexivity|];
  intros _; reflexivity.

Ltac cancelled_late :=
  eexists _, _; split; [reflexivity|]; intros _; split; [reflexivity|];
  intros [?|[[? ?]|?]]; congruence.

(** C3, amended: the operator never raises; whenever it cancels, the dataset
    in memory is untouched, and the persisted file is unchanged when the
    failure comes before the file is opened for writing: network access
    disabled, the request for the dataset raising, or the file not opening. *)
Theorem failed_download_frame (w : world) :
  exists (st : status) (w' : world),
    CSD_OT_UpdateSensors_execute json_loads env w = (Ok st, w') /\
    (st = CANCELLED ->
     SENSOR_DATA w' = SENSOR_DATA w /\
     (online_access env = false \/
      (exists e, urlopen_SENSORS_URL env = Raise e) \/
      can_open_wb env = false ->
      sensors_json w' = sensors_json w)).
Proof.
  run_update.
  destruct (online_access env) eqn:Hon; cbn [negb]; [|cancelled_early].
  destruct (urlopen_SENSORS_URL env) as [response|e] eqn:Hurl; [|cancelled_early].
  destruct (can_open_wb env) eqn:Hwb; [|cancelled_early].
  destruct response as [body|e]; [|cancelled_late].
  destruct (disk_room env) as [room|];
    [destruct (room <? length body)%nat; [cancelled_late|]|];
    (destruct (urlopen_API_URL env) as [[raw|e]|e]; [|cancelled_late..];
     destruct (json_loads raw) as [data|e]; [|cancelled_late];
     destruct (py_get data "sha") as [sha|e]; [|cancelled_late];
     destruct sha; try cancelled_late;
     simpl;
     destruct (load_sensor_data _ _ _) as [[[]|e] w2] eqn:Hload;
     [eexists _, _; split; [reflexivity|]; discriminate
     |apply load_sensor_data_raise in Hload as ->; cancelled_late]).
Qed.

End StoreFacts.

Lemma replace_then_load_witness :
  let w' := (CSD_OT_UpdateSensors_execute reader (online acme_document sha_document)
               (stored cut_document (JDict ∅))).2 in
  sensors_json w' = Some acme_document /\
  SENSOR_DATA w' = acme_only /\
  exists w'',
    load_sensor_data reader (online acme_document sha_document) w' = (Ok tt, w'') /\
    SENSOR_DATA w'' = acme_only.
Proof.
  apply (replace_then_load reader (online acme_document sha_document)
           (stored cut_document (JDict ∅)));
    reflexivity.
Defined.

Lemma failed_download_frame_witness :
  let w := stored acme_document acme_only in
  exists w' : world,
    CSD_OT_UpdateSensors_execute reader (unreachable sha_document) w
    = (Ok CANCELLED, w') /\
    SENSOR_DATA w' = SENSOR_DATA w /\ sensors_json w' = sensors_json w.
Proof.
  intros w.
  destruct (failed_download_frame reader (unreachable sha_document) w)
    as (st & w' & Hrun & Hframe).
  assert (st = CANCELLED) as -> by (vm_compute in Hrun; congruence).
  exists w'. split; [exact Hrun|].
  destruct (Hframe eq_refl) as [Hmem Hfile].
  split; [exact Hmem|]. apply Hfile. right. left. by exists URLError.
Defined.

(** C3, as stated, fails: the connection drops while the body is received;
    the operator cancels with an error report, and the persisted file, which
    held a dataset, is left empty. *)
Lemma dropped_download_counterexample :
  let w := stored acme_document acme_only in
  exists w' : world,
    CSD_OT_UpdateSensors_execute reader (dropped sha_document) w = (Ok CANCELLED, w') /\
    reports w'
    = [(INFO, [Text "Downloading sensor database from "; Text SENSORS_URL; Text "..."]);
       (ERROR, [Text "Failed to download or save sensor database: "; Exc IncompleteRead])] /\
    SENSOR_DATA w' = acme_only /\
    sensors_json w = Some acme_document /\
    sensors_json w' = Some [] /\
    sensors_json w' <> sensors_json w.
Proof.
  intros w. eexists. split; [reflexivity|].
  split; [reflexivity|]. split; [reflexivity|]. split; [reflexivity|].
  split; [reflexivity|]. discriminate.
Qed.

(** What [load_sensor_data] does handle: a missing file and a document the
    reader rejects with [JSONDecodeError] both give the empty dataset. *)
Lemma load_sensor_data_fallbacks (json_loads : list Byte.byte -> res json)
    (env : environment) (w : world) :
  (sensors_json w = None ->
   load_sensor_data json_loads env w
   = (Ok tt, add_stdout "Camera Sensor Database: sensors.json not found."
               (set_SENSOR_DATA (JDict ∅) w))) /\
  (forall content,
     sensors_json w = Some content -> can_open_r env = true ->
     json_loads content = Raise JSONDecodeError ->
     load_sensor_data json_loads env w
     = (Ok tt, add_stdout "Camera Sensor Database: Error reading sensors.json file."
                 (set_SENSOR_DATA (JDict ∅) w))).
Proof.
  rewrite load_sensor_data_eq. split.
  - by intros ->.
  - by intros content -> -> ->.
Qed.

(** Any other exception of the reader leaves [load_sensor_data] uncaught. *)
Lemma load_sensor_data_escapes (json_loads : list Byte.byte -> res json)
    (env : environment) (w : world) (content : list Byte.byte) (e : exn) :
  sensors_json w = Some content -> can_open_r env = true ->
  json_loads content = Raise e -> e <> JSONDecodeError ->
  load_sensor_data json_loads env w = (Raise e, w).
Proof.
  intros Hfile Hopen Hread He. rewrite load_sensor_data_eq, Hfile, Hopen, Hread.
  by rewrite bool_decide_eq_false_2.
Qed.

(** C2, at the failing input: the persisted file holds the JSON array [[1]].
    [load_sensor_data] returns normally, reports the data as loaded and
    leaves the list, not an empty dataset, in [SENSOR_DATA]; the manufacturer
    callback then raises on it. *)
Theorem load_sensor_data_keeps_array :
  let w := stored array_document (JDict ∅) in
  exists w' : world,
    load_sensor_data reader (online [] []) w = (Ok tt, w') /\
    SENSOR_DATA w' = JList [JInt 1] /\
    stdout w' = ["Camera Sensor Database: Loaded sensor data."] /\
    get_manufacturers w' = Raise AttributeError.
Proof.
  intros w. eexists. split; [reflexivity|].
  split; [reflexivity|]. split; reflexivity.
Qed.

(** * Further properties of the add-on *)

(** ** Choice lists *)

Lemma sorted_or_shape (d : gmap string json) (fallback : item) :
  let r := sorted_or (items_of (map_to_list d).*1) fallback in
  r <> [] /\
  (r = [fallback] \/
   exists ks, r = items_of ks /\ NoDup ks /\ forall k, k ∈ ks <-> is_Some (d !! k)).
Proof.
  intros r. destruct (sorted_or_choices d fallback) as [[_ Hr]|[Hne Hr]]; fold r in Hr.
  - rewrite Hr. split; [done|by left].
  - destruct Hr as (ks & Hr & _ & Hnd & Hks). split; [|right; by exists ks].
    apply map_choose in Hne as (k & v & Hk).
    assert (k ∈ ks) as Hin by (apply Hks; by exists v).
    rewrite Hr. destruct ks; [by apply elem_of_nil in Hin|done].
Qed.

Lemma get_models_shape (w : world) (r : list item) :
  get_models w = Ok r ->
  r = [NOT_APPLICABLE] \/
  exists ms : gmap string json,
    r = sorted_or (items_of (map_to_list ms).*1) NOT_APPLICABLE.
Proof.
  unfold get_models. destruct (_ || _); [intros [= <-]; by left|].
  destruct (SENSOR_DATA w) as [| | | | | |d]; try discriminate. simpl.
  destruct (d !! _) as [[| | | | | |ms]|]; simpl; try discriminate.
  - intros [= <-]. right. by exists ms.
  - intros [= <-]. by left.
Qed.

Lemma get_formats_shape (w : world) (r : list item) :
  get_formats w = Ok r ->
  r = [NOT_APPLICABLE] \/
  exists fs : gmap string json,
    r = sorted_or (items_of (map_to_list fs).*1) NOT_APPLICABLE.
Proof.
  unfold get_formats. destruct (_ || _); [intros [= <-]; by left|].
  destruct (SENSOR_DATA w) as [| | | | | |d]; try discriminate. simpl.
  destruct (d !! _) as [[| | | | | |ms]|]; simpl; try discriminate;
    [|intros [= <-]; by left].
  destruct (ms !! _) as [[| | | | | |rec]|]; simpl; try discriminate;
    [|intros [= <-]; by left].
  destruct (rec !! _) as [[| | | | | |fs]|]; simpl; try discriminate.
  - intros [= <-]. right. by exists fs.
  - intros [= <-]. by left.
Qed.

Lemma choices_usable (fallback : item) (r : list item) :
  (r = [fallback] \/
   exists d : gmap string json, r = sorted_or (items_of (map_to_list d).*1) fallback) ->
  r <> [] /\ NoDup (identifier <$> r).
Proof.
  intros [->|[d ->]].
  - split; [done|]. apply NoDup_singleton.
  - destruct (sorted_or_shape d fallback) as [Hne [Hr|(ks & Hr & Hnd & _)]].
    + split; [exact Hne|]. rewrite Hr. apply NoDup_singleton.
    + split; [exact Hne|]. rewrite Hr. by rewrite identifier_items_of.
Qed.

(** X1: whatever the dataset and the selection, a callback that returns
    gives the enum at least one item, and no two items share an identifier. *)
Theorem choices_never_empty (w : world) (r : list item) :
  get_manufacturers w = Ok r \/ get_models w = Ok r \/ get_formats w = Ok r ->
  r <> [] /\ NoDup (identifier <$> r).
Proof.
  intros [H|[H|H]].
  - apply (choices_usable NO_DATA). right.
    unfold get_manufacturers in H.
    destruct (SENSOR_DATA w) as [| | | | | |d]; try discriminate.
    injection H as <-. by exists d.
  - apply (choices_usable NOT_APPLICABLE).
    destruct (get_models_shape w r H) as [->|[ms ->]]; [by left|right; by exists ms].
  - apply (choices_usable NOT_APPLICABLE).
    destruct (get_formats_shape w r H) as [->|[fs ->]]; [by left|right; by exists fs].
Qed.

Lemma choices_never_empty_witness :
  [("X1", "X1", "")] <> [] /\ NoDup (identifier <$> [("X1", "X1", "")]).
Proof.
  apply (choices_never_empty (session acme "Acme" "" "")).
  right. left. reflexivity.
Defined.

(** X2: the guards of the callbacks come before any look at the dataset.
    With the manufacturer unset or the sentinel, [get_models] answers "N/A",
    and with the manufacturer or the model unset or the sentinel,
    [get_formats] answers "N/A", even when [SENSOR_DATA] is no mapping; with
    them set, and always for [get_manufacturers], a dataset that is no
    mapping makes the callback raise [AttributeError]. *)
Theorem choices_guards (w : world) :
  let m := manufacturers (csd_sensor_properties w) in
  let mo := models (csd_sensor_properties w) in
  (m = "" \/ m = "NONE" -> get_models w = Ok [NOT_APPLICABLE]) /\
  (m = "" \/ m = "NONE" \/ mo = "" \/ mo = "NONE" ->
   get_formats w = Ok [NOT_APPLICABLE]) /\
  ((forall d, SENSOR_DATA w <> JDict d) ->
   get_manufacturers w = Raise AttributeError /\
   (m <> "" -> m <> "NONE" -> get_models w = Raise AttributeError) /\
   (m <> "" -> m <> "NONE" -> mo <> "" -> mo <> "NONE" ->
    get_formats w = Raise AttributeError)).
Proof.
  intros m mo. unfold get_manufacturers, get_models, get_formats. fold m mo.
  split_and!.
  - intros [->| ->]; reflexivity.
  - intros [->|[->|[->| ->]]]; simpl; try reflexivity.
    + by destruct (negb _).
    + by rewrite orb_true_r.
    + by rewrite !orb_true_r.
  - intros HD.
    assert (forall k dflt, py_get_default (SENSOR_DATA w) k dflt = Raise AttributeError)
      as Hget.
    { intros k dflt. destruct (SENSOR_DATA w) as [| | | | | |d]; try reflexivity.
      by destruct (HD d). }
    split_and!.
    + destruct (SENSOR_DATA w) as [| | | | | |d]; try reflexivity. by destruct (HD d).
    + intros H1 H2. rewrite (proj2 (unset_or_sentinel m)) by done. by rewrite Hget.
    + intros H1 H2 H3 H4.
      assert (negb (truthy (JStr m)) || negb (truthy (JStr mo))
              || String.eqb m "NONE" || String.eqb mo "NONE" = false) as ->.
      { rewrite !orb_false_iff, !String.eqb_neq. split_and!; try done.
        - by destruct m.
        - by destruct mo. }
      by rewrite Hget.
Qed.

Lemma choices_guards_witness :
  get_formats (session (JList [JInt 1]) "Acme" "NONE" "") = Ok [NOT_APPLICABLE].
Proof.
  apply (choices_guards (session (JList [JInt 1]) "Acme" "NONE" "")).
  right. right. right. reflexivity.
Defined.

Lemma offered_iff_key (d : gmap string json) (k : string) :
  (k, k, "") ∈ sorted_or (items_of (map_to_list d).*1) NOT_APPLICABLE
  <-> is_Some (d !! k).
Proof.
  destruct (sorted_or_choices d NOT_APPLICABLE) as [[-> ->]|[_ (ks & -> & _ & _ & Hks)]].
  - rewrite lookup_empty, list_elem_of_singleton. split.
    + intros H. by destruct (proj2 (sentinel_is_no_key_item k)).
    + by intros [? ?].
  - rewrite <- Hks. unfold items_of. rewrite list_elem_of_fmap. split.
    + by intros (k' & [= <-] & Hin).
    + intros Hin. by exists k.
Qed.

(** X3: the formats [get_formats] offers are the formats the apply operators
    find.  A format whose item is in the list is found by the operators'
    subscription chain under the current manufacturer and model; and when
    both of these are set, every format the chain finds is in the list. *)
Theorem offered_format_resolves (w : world) (f : string) :
  let p := csd_sensor_properties w in
  let chosen :=
    select {| manufacturers := manufacturers p; models := models p; formats := f |} w in
  ((exists r, get_formats w = Ok r /\ (f, f, "") ∈ r) ->
   exists v, format_record chosen = Ok v) /\
  (manufacturers p <> "" -> manufacturers p <> "NONE" ->
   models p <> "" -> models p <> "NONE" ->
   (exists v, format_record chosen = Ok v) ->
   exists r, get_formats w = Ok r /\ (f, f, "") ∈ r).
Proof.
  intros p chosen. unfold get_formats, format_record, chosen. fold p.
  cbn [select csd_sensor_properties SENSOR_DATA manufacturers models formats].
  set (m := manufacturers p). set (mo := models p).
  assert (forall x : item, (f, f, "") ∈ [x] -> x = NOT_APPLICABLE -> False) as Hsent.
  { intros x Hin ->. apply list_elem_of_singleton in Hin.
    by destruct (proj2 (sentinel_is_no_key_item f)). }
  split.
  - intros (r & Hr & Hin).
    destruct (_ || _); [injection Hr as <-; by destruct (Hsent _ Hin)|].
    destruct (SENSOR_DATA w) as [| | | | | |d]; try discriminate. simpl in *.
    destruct (d !! m) as [[| | | | | |ms]|]; simpl in *; try discriminate;
      [|injection Hr as <-; by destruct (Hsent _ Hin)].
    destruct (ms !! mo) as [[| | | | | |rec]|]; simpl in *; try discriminate;
      [|injection Hr as <-; by destruct (Hsent _ Hin)].
    destruct (rec !! "sensor dimensions") as [[| | | | | |fs]|]; simpl in *;
      try discriminate; [|injection Hr as <-; by destruct (Hsent _ Hin)].
    injection Hr as <-. apply offered_iff_key in Hin as [v Hv].
    rewrite Hv. by exists v.
  - intros H1 H2 H3 H4 (v & Hv).
    assert (negb (truthy (JStr m)) || negb (truthy (JStr mo))
            || String.eqb m "NONE" || String.eqb mo "NONE" = false) as ->.
    { rewrite !orb_false_iff, !String.eqb_neq. split_and!; try done.
      - by destruct m.
      - by destruct mo. }
    destruct (SENSOR_DATA w) as [| | | | | |d]; try discriminate. simpl in *.
    destruct (d !! m) as [[| | | | | |ms]|]; simpl in *; try discriminate.
    destruct (ms !! mo) as [[| | | | | |rec]|]; simpl in *; try discriminate.
    destruct (rec !! "sensor dimensions") as [[| | | | | |fs]|]; simpl in *;
      try discriminate.
    destruct (fs !! f) as [v'|] eqn:Hf; [|discriminate].
    eexists. split; [reflexivity|]. apply offered_iff_key. by exists v'.
Qed.

Lemma offered_format_resolves_witness :
  exists v, format_record
              (select {| manufacturers := "Acme"; models := "X1"; formats := "Full Frame" |}
                 (session acme "Acme" "X1" "")) = Ok v.
Proof.
  apply (proj1 (offered_format_resolves (session acme "Acme" "X1" "") "Full Frame")).
  exists [("Full Frame", "Full Frame", "")]. split; [reflexivity|].
  apply list_elem_of_singleton. reflexivity.
Defined.

(** ** The apply operators: messages, failures, the gate *)

(** The cases of an operator's outcome, once the run is known. *)
Ltac outcome :=
  simpl; split_and!; try reflexivity;
  first [ by auto
        | by eexists
        | by left
        | right; eexists _, _, _; split; [eassumption|reflexivity]
        | eexists _, _; split; [by left|reflexivity]
        | eexists _, _; split; [by right|reflexivity] ].

(** Case analysis on the host's answer to each assignment in sight. *)
Ltac host_cases :=
  repeat match goal with
         | |- context [match host_refuses ?w ?name ?v with _ => _ end] =>
             destruct (host_refuses w name v) as [[]|] eqn:?
         | H : context [match host_refuses ?w ?name ?v with _ => _ end] |- _ =>
             destruct (host_refuses w name v) as [[]|] eqn:?
         end.

Lemma field_KeyError_iff (w : world) (field : string) :
  format_field w field = Raise KeyError <->
  absent (SENSOR_DATA w) (manufacturers (csd_sensor_properties w))
    (models (csd_sensor_properties w)) (formats (csd_sensor_properties w)) \/
  exists rec : gmap string json,
    format_record w = Ok (JDict rec) /\ rec !! field = None.
Proof.
  split.
  - unfold format_field. destruct (format_record w) as [v|e] eqn:Hrec; simpl.
    + destruct v as [| | | | | |rec]; simpl; try discriminate.
      destruct (rec !! field) eqn:Hf; [discriminate|]. intros _. right. by exists rec.
    + intros [= ->]. left. apply KeyError_absent. by rewrite format_record_session.
  - intros [Habs|(rec & Hrec & Hf)].
    + by apply absent_field.
    + unfold format_field. rewrite Hrec. simpl. by rewrite Hf.
Qed.

(** X4: [execute] of an apply operator takes its "Data not found" branch
    (error report, cancelled, nothing else changed) exactly when the selection
    is absent from the dataset at some level or the record of the selected
    format is a mapping without the operator's key, [mm] or [resolution]. *)
Theorem data_not_found_iff (w : world) :
  let missing (field : string) :=
    absent (SENSOR_DATA w) (manufacturers (csd_sensor_properties w))
      (models (csd_sensor_properties w)) (formats (csd_sensor_properties w)) \/
    exists rec : gmap string json,
      format_record w = Ok (JDict rec) /\ rec !! field = None in
  (CSD_OT_ApplySensor_execute w
   = (Ok CANCELLED,
      add_report ERROR [Text "Could not apply sensor settings. Data not found."] w)
   <-> missing "mm") /\
  (CSD_OT_ApplyResolution_execute w
   = (Ok CANCELLED,
      add_report ERROR [Text "Could not apply resolution settings. Data not found."] w)
   <-> missing "resolution").
Proof.
  intros missing. unfold missing. split; rewrite <- field_KeyError_iff.
  - rewrite ApplySensor_execute_eq.
    destruct (format_field w "mm") as [[| | | | | |r]|[]]; try (split; discriminate);
      [|done].
    cbv zeta. destruct (_ && _); [destruct (camera w); host_cases|];
      split; try discriminate.
    intros [= H]. apply app_inv_head in H. discriminate.
  - rewrite ApplyResolution_execute_eq.
    destruct (format_field w "resolution") as [[| | | | | |r]|[]];
      try (split; discriminate); [|done].
    cbv zeta. destruct (_ && _); host_cases; split; try discriminate.
    intros [= H]. apply app_inv_head in H. discriminate.
Qed.

Lemma data_not_found_iff_witness :
  CSD_OT_ApplyResolution_execute (session acme_zero_width "Acme" "X1" "Full Frame")
  = (Ok CANCELLED,
     add_report ERROR [Text "Could not apply resolution settings. Data not found."]
       (session acme_zero_width "Acme" "X1" "Full Frame")).
Proof.
  apply (proj2 (data_not_found_iff (session acme_zero_width "Acme" "X1" "Full Frame"))).
  right. eexists. split; reflexivity.
Defined.

(** X5: how [execute] of an apply operator can end.  However it ends, the
    dataset, the selection, the preferences, the persisted file and the
    printed output are as before.  If it raises, no report has been added,
    the exception is a [TypeError], an [AttributeError] or a [ValueError] (a
    [KeyError] never escapes), and either nothing has changed or the host
    has refused an assignment and the exception is the host's.  If it
    cancels, one warning or error report has been added and nothing else has
    changed.  If it finishes, one info report has been added. *)
Theorem apply_outcome (w w' : world) (r : res status) :
  CSD_OT_ApplySensor_execute w = (r, w') \/ CSD_OT_ApplyResolution_execute w = (r, w') ->
  SENSOR_DATA w' = SENSOR_DATA w /\
  csd_sensor_properties w' = csd_sensor_properties w /\
  preferences w' = preferences w /\
  sensors_json w' = sensors_json w /\
  stdout w' = stdout w /\
  match r with
  | Raise e =>
      reports w' = reports w /\
      (e = TypeError \/ e = AttributeError \/ e = ValueError) /\
      (w' = w \/
       exists (name : string) (v : json) (x : refusal),
         host_refuses w name v = Some x /\ e = refusal_exn x)
  | Ok CANCELLED =>
      exists (l : level) (msg : list piece),
        (l = WARNING \/ l = ERROR) /\ w' = add_report l msg w
  | Ok FINISHED =>
      exists msg, reports w' = (reports w ++ [(INFO, msg)])%list
  end.
Proof.
  intros [H|H].
  - rewrite ApplySensor_execute_eq in H.
    destruct (format_field w "mm") as [v|e] eqn:Hfield.
    + destruct v as [| | | | | |d]; try (injection H as <- <-; outcome).
      cbv zeta in H. destruct (_ && _).
      * destruct (camera w); host_cases; injection H as <- <-; outcome.
      * injection H as <- <-. outcome.
    + destruct (format_field_raises w "mm" e Hfield) as [-> | ->];
        injection H as <- <-; outcome.
  - rewrite ApplyResolution_execute_eq in H.
    destruct (format_field w "resolution") as [v|e] eqn:Hfield.
    + destruct v as [| | | | | |d]; try (injection H as <- <-; outcome).
      cbv zeta in H. destruct (_ && _); host_cases; injection H as <- <-; outcome.
    + destruct (format_field_raises w "resolution" e Hfield) as [-> | ->];
        injection H as <- <-; outcome.
Qed.

Lemma apply_outcome_witness :
  let w := on_host typed_host (session acme_text_width "Acme" "X1" "Full Frame") in
  let w' := set_camera (Some {[ "sensor_fit" := JStr "HORIZONTAL" ]}) w in
  SENSOR_DATA w' = SENSOR_DATA w /\
  csd_sensor_properties w' = csd_sensor_properties w /\
  preferences w' = preferences w /\
  sensors_json w' = sensors_json w /\
  stdout w' = stdout w /\
  reports w' = reports w /\
  (TypeError = TypeError \/ TypeError = AttributeError \/ TypeError = ValueError) /\
  (w' = w \/
   exists (name : string) (v : json) (x : refusal),
     host_refuses w name v = Some x /\ TypeError = refusal_exn x).
Proof.
  intros w w'. apply (apply_outcome w w' (Raise TypeError)).
  left. reflexivity.
Defined.

(** X6: [poll] of the resolution operator is a gate for its [execute].  When
    [poll] answers true, the resolution object holds a width and a height
    that are instances of [int], and [execute] does not cancel: it finishes,
    applying that width and height, when the host takes both; it raises the
    host's exception with nothing changed when the host refuses the width;
    and it raises the host's exception with [resolution_x] already set when
    the host refuses the height.  When [execute] finishes and a format is
    selected (not unset, not the sentinel), [poll] answers true. *)
Theorem resolution_poll_gate (w : world) :
  let f := formats (csd_sensor_properties w) in
  (CSD_OT_ApplyResolution_poll w = (Ok true, w) ->
   exists (r : gmap string json) (width height : json),
     format_field w "resolution" = Ok (JDict r) /\
     r !! "width" = Some width /\ r !! "height" = Some height /\
     isinstance_int width = true /\ isinstance_int height = true /\
     CSD_OT_ApplyResolution_execute w =
     match host_refuses w "resolution_x" width with
     | Some x => (Raise (refusal_exn x), w)
     | None =>
         match host_refuses w "resolution_y" height with
         | Some x =>
             (Raise (refusal_exn x),
              set_render (<["resolution_x" := width]> (render w)) w)
         | None => (Ok FINISHED, resolution_applied width height w)
         end
     end) /\
  (forall w', f <> "" -> f <> "NONE" ->
     CSD_OT_ApplyResolution_execute w = (Ok FINISHED, w') ->
     CSD_OT_ApplyResolution_poll w = (Ok true, w)).
Proof.
  intros f. rewrite ApplyResolution_poll_eq, ApplyResolution_execute_eq.
  cbv zeta. fold f. split.
  - destruct (_ || _); [discriminate|].
    destruct (format_field w "resolution") as [[| | | | | |r]|e]; try discriminate.
    + destruct (isinstance_int (default JNull (r !! "width"))) eqn:Hw; [|discriminate].
      destruct (isinstance_int (default JNull (r !! "height"))) eqn:Hh; [|discriminate].
      intros _.
      destruct (isinstance_int_default _ Hw) as (width & Hw' & _).
      destruct (isinstance_int_default _ Hh) as (height & Hh' & _).
      exists r, width, height. rewrite Hw' in Hw |- *. rewrite Hh' in Hh |- *.
      by split_and!.
    + by destruct (is_KeyError_or_TypeError e).
  - intros w' Hf1 Hf2. rewrite (proj2 (unset_or_sentinel f)) by done.
    destruct (format_field w "resolution") as [[| | | | | |r]|[]]; try discriminate.
    destruct (_ && _); [done|discriminate].
Qed.

Lemma resolution_poll_gate_witness :
  let w := on_host typed_host (session acme_wide "Acme" "X1" "Full Frame") in
  exists (r : gmap string json) (width height : json),
    format_field w "resolution" = Ok (JDict r) /\
    r !! "width" = Some width /\ r !! "height" = Some height /\
    isinstance_int width = true /\ isinstance_int height = true /\
    CSD_OT_ApplyResolution_execute w =
    match typed_host "resolution_x" width with
    | Some x => (Raise (refusal_exn x), w)
    | None =>
        match typed_host "resolution_y" height with
        | Some x =>
            (Raise (refusal_exn x),
             set_render (<["resolution_x" := width]> (render w)) w)
        | None => (Ok FINISHED, resolution_applied width height w)
        end
    end.
Proof.
  intros w. apply (proj1 (resolution_poll_gate w)). reflexivity.
Defined.

(** X7: [poll] of the resolution operator never changes the world.  It
    answers false where the subscription chain raises: on a [TypeError] (a
    level of the dataset that is no mapping), where [execute], which catches
    only [KeyError], would raise.  The only exception [poll] lets out is the
    [AttributeError] of a [resolution] value that is no mapping. *)
Theorem resolution_poll_errors (w : world) :
  (forall r w', CSD_OT_ApplyResolution_poll w = (r, w') ->
     w' = w /\
     forall e, r = Raise e ->
       e = AttributeError /\
       exists v, format_field w "resolution" = Ok v /\ forall d, v <> JDict d) /\
  (format_field w "resolution" = Raise TypeError ->
   CSD_OT_ApplyResolution_poll w = (Ok false, w) /\
   CSD_OT_ApplyResolution_execute w = (Raise TypeError, w)).
Proof.
  rewrite ApplyResolution_poll_eq, ApplyResolution_execute_eq. cbv zeta. split.
  - intros r w'. destruct (_ || _); [by intros [= <- <-]|].
    destruct (format_field w "resolution") as [v|e] eqn:Hfield.
    + destruct v as [| | | | | |d]; intros [= <- <-]; (split; [done|]);
        intros e; try discriminate; intros [= <-]; (split; [done|]);
        eexists; (split; [done|]); done.
    + destruct (format_field_raises w "resolution" e Hfield) as [-> | ->];
        by intros [= <- <-].
  - intros ->. split; [|done]. by destruct (_ || _).
Qed.

Lemma resolution_poll_errors_witness :
  CSD_OT_ApplyResolution_poll
    (session (JDict {[ "Acme" := JInt 5 ]}) "Acme" "X1" "Full Frame")
  = (Ok false, session (JDict {[ "Acme" := JInt 5 ]}) "Acme" "X1" "Full Frame") /\
  CSD_OT_ApplyResolution_execute
    (session (JDict {[ "Acme" := JInt 5 ]}) "Acme" "X1" "Full Frame")
  = (Raise TypeError, session (JDict {[ "Acme" := JInt 5 ]}) "Acme" "X1" "Full Frame").
Proof.
  apply (proj2 (resolution_poll_errors
                  (session (JDict {[ "Acme" := JInt 5 ]}) "Acme" "X1" "Full Frame"))).
  reflexivity.
Defined.

(** X8: [poll] of the sensor operator looks at the camera and the format
    selection only and changes nothing.  When it answers true and the [mm]
    value of the selected format is a mapping or cannot be found, [execute]
    finishes or cancels whenever the host takes every value; it raises only
    where the host refuses one of its three assignments, with the host's
    exception, and a refusal of [sensor_width] or [sensor_height] comes after
    [sensor_fit] has been set to [HORIZONTAL].  Without a camera, [poll]
    answers false, and [execute] on a format with usable [mm] data raises
    [AttributeError] and writes nothing. *)
Theorem sensor_poll_gate (w : world) :
  (exists b, CSD_OT_ApplySensor_poll w = (Ok b, w) /\
     (b = true <->
      camera w <> None /\
      formats (csd_sensor_properties w) <> "" /\
      formats (csd_sensor_properties w) <> "NONE")) /\
  (CSD_OT_ApplySensor_poll w = (Ok true, w) ->
   (exists r, format_field w "mm" = Ok (JDict r)) \/
   format_field w "mm" = Raise KeyError ->
   ((forall name v, host_refuses w name v = None) ->
    exists st w', CSD_OT_ApplySensor_execute w = (Ok st, w')) /\
   (forall e w', CSD_OT_ApplySensor_execute w = (Raise e, w') ->
      exists (name : string) (v : json) (x : refusal),
        host_refuses w name v = Some x /\ e = refusal_exn x /\
        reports w' = reports w /\
        (name = "sensor_fit" /\ w' = w \/
         (name = "sensor_width" \/ name = "sensor_height") /\
         exists cam_data cam' : object,
           camera w = Some cam_data /\ camera w' = Some cam' /\
           cam' !! "sensor_fit" = Some (JStr "HORIZONTAL") /\
           cam' !! "sensor_height" = cam_data !! "sensor_height"))) /\
  (camera w = None ->
   CSD_OT_ApplySensor_poll w = (Ok false, w) /\
   forall r width height,
     format_field w "mm" = Ok (JDict r) ->
     r !! "width" = Some width -> r !! "height" = Some height ->
     truthy width = true -> truthy height = true ->
     CSD_OT_ApplySensor_execute w = (Raise AttributeError, w)).
Proof.
  split_and!.
  - eexists. split; [reflexivity|].
    rewrite !andb_true_iff, bool_decide_eq_true, negb_true_iff, String.eqb_neq.
    split; intros [[H1 H2] H3] || intros (H1 & H2 & H3); split_and!; try done.
    + intros Hf. by rewrite Hf in H2.
    + by destruct (formats _).
  - unfold CSD_OT_ApplySensor_poll, eval. intros [= Hpoll] Hmm.
    rewrite !andb_true_iff, bool_decide_eq_true in Hpoll.
    destruct Hpoll as [[Hcam _] _]. rewrite ApplySensor_execute_eq.
    destruct (camera w) as [cam_data|] eqn:Ecam; [clear Hcam|done].
    destruct Hmm as [[r ->]| ->]; [|split; [by eexists _, _|discriminate]].
    cbv zeta. destruct (_ && _); [|split; [by eexists _, _|discriminate]].
    split.
    + intros Hacc. rewrite !Hacc. by eexists _, _.
    + intros e w' H. host_cases; try discriminate; injection H as <- <-;
        eexists _, _, _; (split; [eassumption|]); (split; [reflexivity|]);
        (split; [reflexivity|]);
        first [ by left
              | right; split; [by auto|]; eexists _, _; simpl;
                split_and!; try reflexivity; by simplify_map_eq ].
  - intros Hcam. split.
    + unfold CSD_OT_ApplySensor_poll, eval. by rewrite Hcam.
    + intros r width height Hmm Hw Hh Tw Th.
      rewrite ApplySensor_execute_eq, Hmm, Hcam. cbv zeta.
      rewrite Hw, Hh. simpl. by rewrite Tw, Th.
Qed.

Lemma sensor_poll_gate_witness :
  let w := on_host typed_host (session acme_text_width "Acme" "X1" "Full Frame") in
  let w' := set_camera (Some {[ "sensor_fit" := JStr "HORIZONTAL" ]}) w in
  exists (name : string) (v : json) (x : refusal),
    host_refuses w name v = Some x /\ TypeError = refusal_exn x /\
    reports w' = reports w /\
    (name = "sensor_fit" /\ w' = w \/
     (name = "sensor_width" \/ name = "sensor_height") /\
     exists cam_data cam' : object,
       camera w = Some cam_data /\ camera w' = Some cam' /\
       cam' !! "sensor_fit" = Some (JStr "HORIZONTAL") /\
       cam' !! "sensor_height" = cam_data !! "sensor_height").
Proof.
  intros w w'.
  apply (proj2 (proj1 (proj2 (sensor_poll_gate w))
                  eq_refl (or_introl (ex_intro _ _ eq_refl)))).
  reflexivity.
Defined.

(** Two runs on a host with typed properties.  A sensor width given as a
    string is refused after [sensor_fit] has been set; a resolution width of
    [2^31] passes [poll] and is refused by [resolution_x]. *)
Example text_width_refused :
  let w := on_host typed_host (session acme_text_width "Acme" "X1" "Full Frame") in
  CSD_OT_ApplySensor_poll w = (Ok true, w) /\
  CSD_OT_ApplySensor_execute w
  = (Raise TypeError, set_camera (Some {[ "sensor_fit" := JStr "HORIZONTAL" ]}) w).
Proof. split; reflexivity. Qed.

Example wide_resolution_refused :
  let w := on_host typed_host (session acme_wide "Acme" "X1" "Full Frame") in
  CSD_OT_ApplyResolution_poll w = (Ok true, w) /\
  CSD_OT_ApplyResolution_execute w = (Raise ValueError, w).
Proof. split; reflexivity. Qed.

(** ** Loading, downloading and checking *)

Section MoreStoreFacts.

Variable json_loads : list Byte.byte -> res json.
Variable env : environment.

Ltac run_download :=
  unfold CSD_OT_UpdateSensors_execute, try_except;
  unfold mbind, M_bind, eval, report, modify, open_for_writing, write_file, set_pref,
    py_open.

(** X9: [load_sensor_data] touches the dataset in memory and the printed
    output only: the selection, the camera, the render settings, the
    preferences, the reports and the persisted file are as before.  When it
    raises, nothing at all has changed, and the exception is the [OSError] of
    a file that cannot be opened or an exception of the JSON reader other
    than [JSONDecodeError]. *)
Theorem load_sensor_data_frame (w w' : world) (r : res unit) :
  load_sensor_data json_loads env w = (r, w') ->
  csd_sensor_properties w' = csd_sensor_properties w /\
  camera w' = camera w /\ render w' = render w /\
  preferences w' = preferences w /\ reports w' = reports w /\
  sensors_json w' = sensors_json w /\
  forall e, r = Raise e ->
    w' = w /\
    exists content, sensors_json w = Some content /\
      ((can_open_r env = false /\ e = OSError) \/
       (can_open_r env = true /\ json_loads content = Raise e /\ e <> JSONDecodeError)).
Proof.
  rewrite load_sensor_data_eq.
  destruct (sensors_json w) as [content|] eqn:Hfile.
  - destruct (can_open_r env) eqn:Hopen.
    + destruct (json_loads content) as [data|e'] eqn:Hread.
      * intros [= <- <-]. by split_and!.
      * case_bool_decide as He; intros [= <- <-]; split_and!; try done.
        intros e [= <-]. split; [done|]. exists content. split; [done|]. by right.
    + intros [= <- <-]. split_and!; try done.
      intros e [= <-]. split; [done|]. exists content. split; [done|]. by left.
  - intros [= <- <-]. by split_and!.
Qed.

(** X10: loading is idempotent.  A second [load_sensor_data] right after a
    first one ends the same way and leaves the same dataset in memory. *)
Theorem load_sensor_data_twice (w w1 : world) (r : res unit) :
  load_sensor_data json_loads env w = (r, w1) ->
  exists w2, load_sensor_data json_loads env w1 = (r, w2) /\
             SENSOR_DATA w2 = SENSOR_DATA w1.
Proof.
  rewrite !load_sensor_data_eq.
  destruct (sensors_json w) as [content|] eqn:Hfile.
  - destruct (can_open_r env) eqn:Hopen.
    + destruct (json_loads content) as [data|e'] eqn:Hread.
      * intros [= <- <-]. simpl. rewrite Hfile, Hread. by eexists.
      * case_bool_decide as He; intros [= <- <-]; simpl; rewrite Hfile, Hread.
        -- rewrite bool_decide_eq_true_2 by done. by eexists.
        -- rewrite bool_decide_eq_false_2 by done. by eexists.
    + intros [= <- <-]. rewrite Hfile. by eexists.
  - intros [= <- <-]. simpl. rewrite Hfile. by eexists.
Qed.

Lemma download_finished_inv (w w' : world) :
  CSD_OT_UpdateSensors_execute json_loads env w = (Ok FINISHED, w') ->
  exists (body raw : list Byte.byte) (data : gmap string json),
    urlopen_SENSORS_URL env = Ok (Ok body) /\
    urlopen_API_URL env = Ok (Ok raw) /\
    json_loads raw = Ok (JDict data) /\
    sensors_json w' = Some body /\
    preferences w' !! "remote_sha" = Some (default JNull (data !! "sha")) /\
    preferences w' !! "update_available" = Some (JBool false) /\
    preferences w' !! "last_checked" = Some (JStr (now env)) /\
    (json_loads body = Ok (SENSOR_DATA w') \/
     (json_loads body = Raise JSONDecodeError /\ SENSOR_DATA w' = JDict ∅)) /\
    csd_sensor_properties w' = csd_sensor_properties w /\
    camera w' = camera w /\ render w' = render w.
Proof.
  run_download.
  destruct (online_access env); [|discriminate]. cbn [negb].
  destruct (urlopen_SENSORS_URL env) as [response|e]; [|discriminate].
  destruct (can_open_wb env); [|discriminate].
  destruct response as [body|e]; [|discriminate].
  destruct (disk_room env) as [room|];
    [destruct (room <? length body)%nat; [discriminate|]|];
    (destruct (urlopen_API_URL env) as [[raw|e]|e]; try (simpl; discriminate);
     destruct (json_loads raw) as [data|e] eqn:Hraw; try (simpl; discriminate);
     destruct data as [| | | | | |data]; try (simpl; discriminate);
     intros Hrun; simpl in Hrun;
     destruct (data !! "sha") as [[]|] eqn:Hsha; simpl in Hrun; try discriminate;
     rewrite load_sensor_data_eq in Hrun; simpl in Hrun;
     destruct (can_open_r env); try discriminate;
     destruct (json_loads body) as [v|e] eqn:Hbody;
     [|case_bool_decide as He; [subst e|discriminate]];
     injection Hrun as <-;
     exists body, raw, data; split_and!; try done; simpl;
     try (by simplify_map_eq); first [by left | by right]).
Qed.

(** X11: what a finished download has done.  The dataset request and the
    version request both answered, and the version document is a mapping; the
    file holds the downloaded bytes; the preferences record the document's
    [sha], no update available and the time of the download; the dataset in
    memory is what the reader makes of the bytes, or the empty dataset when
    the reader rejects them with [JSONDecodeError]; the selection, the camera
    and the render settings are as before. *)
Theorem download_finished (w w' : world) :
  CSD_OT_UpdateSensors_execute json_loads env w = (Ok FINISHED, w') ->
  exists (body raw : list Byte.byte) (data : gmap string json),
    urlopen_SENSORS_URL env = Ok (Ok body) /\
    urlopen_API_URL env = Ok (Ok raw) /\
    json_loads raw = Ok (JDict data) /\
    sensors_json w' = Some body /\
    preferences w' !! "remote_sha" = Some (default JNull (data !! "sha")) /\
    preferences w' !! "update_available" = Some (JBool false) /\
    preferences w' !! "last_checked" = Some (JStr (now env)) /\
    (json_loads body = Ok (SENSOR_DATA w') \/
     (json_loads body = Raise JSONDecodeError /\ SENSOR_DATA w' = JDict ∅)) /\
    csd_sensor_properties w' = csd_sensor_properties w /\
    camera w' = camera w /\ render w' = render w.
Proof. apply download_finished_inv. Qed.

(** X12: when the dataset has been downloaded and written but the version
    step fails (the request or its [read] raises, the reader rejects the
    document, or the document is no mapping), the operator cancels with an
    error report: the file holds the new bytes, while the dataset in memory
    and the preferences, the stored [sha] among them, are the old ones. *)
Theorem download_version_step_fails (w : world) (body : list Byte.byte) :
  online_access env = true ->
  urlopen_SENSORS_URL env = Ok (Ok body) ->
  can_open_wb env = true ->
  (forall room, disk_room env = Some room -> (length body <= room)%nat) ->
  (forall raw data, urlopen_API_URL env = Ok (Ok raw) -> json_loads raw <> Ok (JDict data)) ->
  exists (w' : world) (e : exn),
    CSD_OT_UpdateSensors_execute json_loads env w = (Ok CANCELLED, w') /\
    sensors_json w' = Some body /\
    SENSOR_DATA w' = SENSOR_DATA w /\
    preferences w' = preferences w /\
    reports w'
    = (reports w ++
       [(INFO, [Text "Downloading sensor database from "; Text SENSORS_URL; Text "..."]);
        (ERROR, [Text "Failed to download or save sensor database: "; Exc e])])%list.
Proof.
  intros Hon Hurl Hwb Hdisk Hapi. run_download.
  rewrite Hon, Hurl, Hwb. cbn [negb].
  assert (forall (e : exn) (w1 : world),
            sensors_json w1 = Some body -> SENSOR_DATA w1 = SENSOR_DATA w ->
            preferences w1 = preferences w ->
            reports w1
            = (reports w ++
               [(INFO, [Text "Downloading sensor database from "; Text SENSORS_URL;
                        Text "..."])])%list ->
            exists (w' : world) (e' : exn),
              (Ok CANCELLED,
               add_report ERROR
                 [Text "Failed to download or save sensor database: "; Exc e] w1)
              = (Ok CANCELLED, w') /\
              sensors_json w' = Some body /\
              SENSOR_DATA w' = SENSOR_DATA w /\
              preferences w' = preferences w /\
              reports w'
              = (reports w ++
                 [(INFO, [Text "Downloading sensor database from "; Text SENSORS_URL;
                          Text "..."]);
                  (ERROR, [Text "Failed to download or save sensor database: ";
                           Exc e'])])%list) as Hfail.
  { intros e w1 H1 H2 H3 H4. exists (add_report ERROR
      [Text "Failed to download or save sensor database: "; Exc e] w1), e.
    split_and!; try done. simpl. rewrite H4. by rewrite <- app_assoc. }
  destruct (disk_room env) as [room|];
    [rewrite (proj2 (Nat.ltb_ge _ _) (Hdisk room eq_refl))|];
    (destruct (urlopen_API_URL env) as [[raw|e]|e] eqn:Hraw; simpl;
       [|by apply Hfail..];
     destruct (json_loads raw) as [data|e] eqn:Hdata; simpl; [|by apply Hfail];
     destruct data as [| | | | | |d]; simpl; try (by apply Hfail);
     by destruct (Hapi raw d eq_refl Hdata)).
Qed.

End MoreStoreFacts.

Lemma load_sensor_data_frame_witness :
  let w := stored array_document acme_only in
  let w' := (load_sensor_data reader (online [] []) w).2 in
  csd_sensor_properties w' = csd_sensor_properties w /\
  camera w' = camera w /\ render w' = render w /\
  preferences w' = preferences w /\ reports w' = reports w /\
  sensors_json w' = sensors_json w /\
  forall e, Ok tt = Raise e ->
    w' = w /\
    exists content, sensors_json w = Some content /\
      ((can_open_r (online [] []) = false /\ e = OSError) \/
       (can_open_r (online [] []) = true /\ reader content = Raise e /\
        e <> JSONDecodeError)).
Proof.
  apply (load_sensor_data_frame reader (online [] []) (stored array_document acme_only)).
  reflexivity.
Defined.

Lemma load_sensor_data_twice_witness :
  exists w2,
    load_sensor_data reader (online [] [])
      (load_sensor_data reader (online [] []) (stored cut_document acme_only)).2
    = (Ok tt, w2) /\
    SENSOR_DATA w2 = JDict ∅.
Proof.
  apply (load_sensor_data_twice reader (online [] []) (stored cut_document acme_only)).
  reflexivity.
Defined.

Lemma download_finished_witness :
  exists (body raw : list Byte.byte) (data : gmap string json),
    urlopen_SENSORS_URL (online cut_document sha_document) = Ok (Ok body) /\
    urlopen_API_URL (online cut_document sha_document) = Ok (Ok raw) /\
    reader raw = Ok (JDict data) /\
    sensors_json
      (CSD_OT_UpdateSensors_execute reader (online cut_document sha_document)
         (stored acme_document acme_only)).2 = Some body /\
    preferences
      (CSD_OT_UpdateSensors_execute reader (online cut_document sha_document)
         (stored acme_document acme_only)).2 !! "remote_sha"
    = Some (default JNull (data !! "sha")) /\
    preferences
      (CSD_OT_UpdateSensors_execute reader (online cut_document sha_document)
         (stored acme_document acme_only)).2 !! "update_available"
    = Some (JBool false) /\
    preferences
      (CSD_OT_UpdateSensors_execute reader (online cut_document sha_document)
         (stored acme_document acme_only)).2 !! "last_checked"
    = Some (JStr (now (online cut_document sha_document))) /\
    (reader body
     = Ok (SENSOR_DATA
             (CSD_OT_UpdateSensors_execute reader (online cut_document sha_document)
                (stored acme_document acme_only)).2) \/
     (reader body = Raise JSONDecodeError /\
      SENSOR_DATA
        (CSD_OT_UpdateSensors_execute reader (online cut_document sha_document)
           (stored acme_document acme_only)).2 = JDict ∅)) /\
    csd_sensor_properties
      (CSD_OT_UpdateSensors_execute reader (online cut_document sha_document)
         (stored acme_document acme_only)).2
    = csd_sensor_properties (stored acme_document acme_only) /\
    camera
      (CSD_OT_UpdateSensors_execute reader (online cut_document sha_document)
         (stored acme_document acme_only)).2
    = camera (stored acme_document acme_only) /\
    render
      (CSD_OT_UpdateSensors_execute reader (online cut_document sha_document)
         (stored acme_document acme_only)).2
    = render (stored acme_document acme_only).
Proof.
  apply (download_finished reader (online cut_document sha_document)
           (stored acme_document acme_only)).
  reflexivity.
Defined.

Lemma download_version_step_fails_witness :
  exists (w' : world) (e : exn),
    CSD_OT_UpdateSensors_execute reader (online acme_document cut_document)
      (stored cut_document (JDict ∅)) = (Ok CANCELLED, w') /\
    sensors_json w' = Some acme_document /\
    SENSOR_DATA w' = JDict ∅ /\
    preferences w' = ∅ /\
    reports w'
    = ([] ++
       [(INFO, [Text "Downloading sensor database from "; Text SENSORS_URL; Text "..."]);
        (ERROR, [Text "Failed to download or save sensor database: "; Exc e])])%list.
Proof.
  apply (download_version_step_fails reader (online acme_document cut_document)
           (stored cut_document (JDict ∅)) acme_document); try reflexivity.
  - discriminate.
  - intros raw data [= <-]. discriminate.
Defined.

Section UpdateCheckFacts.

Variable json_loads : list Byte.byte -> res json.
Variable env : environment.
Variable response_status : Z.

Lemma CheckForUpdate_execute_eq (w : world) :
  CSD_OT_CheckForUpdate_execute json_loads env response_status w =
  if negb (online_access env)
  then (Ok CANCELLED, add_report WARNING [Text "Internet access is disabled."] w)
  else
    match urlopen_API_URL env with
    | Raise e =>
        (Ok CANCELLED, add_report ERROR [Text "Update check failed: "; Exc e] w)
    | Ok response =>
        if negb (response_status =? 200)%Z
        then (Ok CANCELLED,
              add_report ERROR [Text "Failed to check for updates (HTTP ";
                                Val (JInt response_status); Text ")"] w)
        else
          match (response ≫= json_loads) ≫= (fun data => py_get data "sha") with
          | Raise e =>
              (Ok CANCELLED, add_report ERROR [Text "Update check failed: "; Exc e] w)
          | Ok remote_sha =>
              let newer := truthy remote_sha && py_ne_str remote_sha (prefs_remote_sha w) in
              (Ok FINISHED,
               set_preferences
                 (<["last_checked" := JStr (now env)]>
                    (<["update_available" := JBool newer]> (preferences w)))
                 (add_report INFO
                    [Text (if newer
                           then "An update for the sensor database is available."
                           else "Sensor database is up to date.")]
                    (set_preferences
                       (<["update_available" := JBool newer]> (preferences w)) w)))
          end
    end.
Proof.
  unfold CSD_OT_CheckForUpdate_execute, try_except.
  unfold mbind, M_bind, eval, report, modify, set_pref.
  destruct (online_access env); [|reflexivity]. cbn [negb].
  destruct (urlopen_API_URL env) as [response|e]; [|reflexivity].
  destruct (negb (response_status =? 200)%Z); [reflexivity|].
  destruct response as [raw|e]; [|reflexivity]. simpl.
  destruct (json_loads raw) as [data|e]; [|reflexivity]. simpl.
  destruct (py_get data "sha") as [remote_sha|e]; [|reflexivity].
  cbv zeta. destruct (truthy remote_sha && py_ne_str remote_sha (prefs_remote_sha w));
    reflexivity.
Qed.

(** X13: the update check never raises and never touches the dataset in
    memory, the persisted file, the selection, the camera or the render
    settings.  When it cancels, the preferences are untouched too and exactly
    one warning or error report has been added. *)
Theorem update_check_frame (w : world) :
  exists (st : status) (w' : world),
    CSD_OT_CheckForUpdate_execute json_loads env response_status w = (Ok st, w') /\
    SENSOR_DATA w' = SENSOR_DATA w /\ sensors_json w' = sensors_json w /\
    csd_sensor_properties w' = csd_sensor_properties w /\
    camera w' = camera w /\ render w' = render w /\ stdout w' = stdout w /\
    (st = CANCELLED ->
     exists (l : level) (msg : list piece),
       (l = WARNING \/ l = ERROR) /\ w' = add_report l msg w).
Proof.
  rewrite CheckForUpdate_execute_eq.
  destruct (negb (online_access env)).
  { eexists _, _. split_and!; try done. intros _. eexists _, _. split; [by left|done]. }
  destruct (urlopen_API_URL env) as [response|e].
  2: { eexists _, _. split_and!; try done. intros _. eexists _, _. split; [by right|done]. }
  destruct (negb (response_status =? 200)%Z).
  { eexists _, _. split_and!; try done. intros _. eexists _, _. split; [by right|done]. }
  destruct (_ ≫= _) as [remote_sha|e].
  - eexists _, _. split_and!; done.
  - eexists _, _. split_and!; try done. intros _. eexists _, _. split; [by right|done].
Qed.

(** X14: what a finished update check has decided.  The answer had status
    200 and was a mapping; an update is recorded as available exactly when
    the document's [sha] is true in Python's truth test and differs from the
    stored one (a missing or empty [sha] counts as up to date); the time of
    the check is recorded, and the stored [sha] itself is not changed. *)
Theorem update_check_finished (w w' : world) :
  CSD_OT_CheckForUpdate_execute json_loads env response_status w = (Ok FINISHED, w') ->
  exists (raw : list Byte.byte) (data : gmap string json),
    response_status = 200%Z /\
    urlopen_API_URL env = Ok (Ok raw) /\
    json_loads raw = Ok (JDict data) /\
    let remote_sha := default JNull (data !! "sha") in
    let newer := truthy remote_sha && py_ne_str remote_sha (prefs_remote_sha w) in
    prefs_update_available w' = JBool newer /\
    prefs_last_checked w' = JStr (now env) /\
    prefs_remote_sha w' = prefs_remote_sha w /\
    reports w'
    = (reports w ++
       [(INFO, [Text (if newer
                      then "An update for the sensor database is available."
                      else "Sensor database is up to date.")])])%list.
Proof.
  rewrite CheckForUpdate_execute_eq.
  destruct (negb (online_access env)); [discriminate|].
  destruct (urlopen_API_URL env) as [[raw|e]|e]; try discriminate;
    destruct (negb (response_status =? 200)%Z) eqn:Hstatus; try discriminate.
  apply negb_false_iff, Z.eqb_eq in Hstatus. simpl.
  destruct (json_loads raw) as [data|e] eqn:Hraw; try discriminate. simpl.
  destruct data as [| | | | | |data]; try discriminate. simpl.
  intros [= <-]. exists raw, data.
  split_and!; try done;
    unfold prefs_update_available, prefs_last_checked, prefs_remote_sha; simpl;
    by simplify_map_eq.
Qed.

End UpdateCheckFacts.

Lemma update_check_frame_witness :
  exists (st : status) (w' : world),
    CSD_OT_CheckForUpdate_execute reader offline 200 (stored acme_document acme_only)
    = (Ok st, w') /\
    SENSOR_DATA w' = acme_only /\ sensors_json w' = Some acme_document /\
    csd_sensor_properties w' = csd_sensor_properties (stored acme_document acme_only) /\
    camera w' = Some ∅ /\ render w' = ∅ /\ stdout w' = [] /\
    (st = CANCELLED ->
     exists (l : level) (msg : list piece),
       (l = WARNING \/ l = ERROR) /\
       w' = add_report l msg (stored acme_document acme_only)).
Proof.
  apply (update_check_frame reader offline 200 (stored acme_document acme_only)).
Defined.

Lemma update_check_finished_witness :
  exists (raw : list Byte.byte) (data : gmap string json),
    (200 = 200)%Z /\
    urlopen_API_URL (online [] sha_document) = Ok (Ok raw) /\
    reader raw = Ok (JDict data) /\
    let w := stored acme_document acme_only in
    let w' := (CSD_OT_CheckForUpdate_execute reader (online [] sha_document) 200 w).2 in
    let remote_sha := default JNull (data !! "sha") in
    let newer := truthy remote_sha && py_ne_str remote_sha (prefs_remote_sha w) in
    prefs_update_available w' = JBool newer /\
    prefs_last_checked w' = JStr (now (online [] sha_document)) /\
    prefs_remote_sha w' = prefs_remote_sha w /\
    reports w'
    = (reports w ++
       [(INFO, [Text (if newer
                      then "An update for the sensor database is available."
                      else "Sensor database is up to date.")])])%list.
Proof.
  apply (update_check_finished reader (online [] sha_document) 200
           (stored acme_document acme_only)).
  reflexivity.
Defined.

(** A version document without [sha]: [data.get('sha')] is [None], which
    the [remote_sha] property refuses.  The operator cancels after the file
    has been written and before the dataset is loaded again. *)
Example download_without_sha :
  let w := stored cut_document (JDict ∅) in
  exists w' : world,
    CSD_OT_UpdateSensors_execute reader (online acme_document acme_document) w
    = (Ok CANCELLED, w') /\
    sensors_json w' = Some acme_document /\
    SENSOR_DATA w' = JDict ∅ /\
    preferences w' = preferences w /\
    stdout w' = [] /\
    reports w'
    = [(INFO, [Text "Downloading sensor database from "; Text SENSORS_URL; Text "..."]);
       (ERROR, [Text "Failed to download or save sensor database: "; Exc TypeError])].
Proof. intros w. eexists. split_and!; reflexivity. Qed.

(** ** The operators together, and the panels *)

Section Together.

Variable json_loads : list Byte.byte -> res json.

(** X15: a check after a download compares against the [sha] the download
    stored.  Let a download finish in [env], where the version document has
    the string [s] as its [sha]; let a later check run in [env'], online and
    answered with status 200 by a document whose [sha] is the string [s'].
    Then the check finishes, and it records an update as available exactly
    when [s'] is not empty and differs from [s]: checking against the same
    version reports "up to date". *)
Theorem check_after_download (env env' : environment) (w w1 : world)
    (raw raw' : list Byte.byte) (data data' : gmap string json) (s s' : string) :
  CSD_OT_UpdateSensors_execute json_loads env w = (Ok FINISHED, w1) ->
  urlopen_API_URL env = Ok (Ok raw) -> json_loads raw = Ok (JDict data) ->
  data !! "sha" = Some (JStr s) ->
  online_access env' = true ->
  urlopen_API_URL env' = Ok (Ok raw') -> json_loads raw' = Ok (JDict data') ->
  data' !! "sha" = Some (JStr s') ->
  exists (w2 : world) (newer : bool),
    CSD_OT_CheckForUpdate_execute json_loads env' 200 w1 = (Ok FINISHED, w2) /\
    prefs_update_available w2 = JBool newer /\
    (newer = true <-> s' <> "" /\ s' <> s) /\
    prefs_remote_sha w2 = s.
Proof.
  intros Hrun Hraw Hdata Hsha Hon Hraw' Hdata' Hsha'.
  apply download_finished_inv in Hrun
    as (body & raw0 & data0 & _ & Hraw0 & Hdata0 & _ & Hstored & _).
  rewrite Hraw in Hraw0. injection Hraw0 as <-.
  rewrite Hdata in Hdata0. injection Hdata0 as <-.
  rewrite Hsha in Hstored. simpl in Hstored.
  assert (prefs_remote_sha w1 = s) as Hs by (unfold prefs_remote_sha; by rewrite Hstored).
  rewrite CheckForUpdate_execute_eq, Hon, Hraw'. simpl. rewrite Hdata'. simpl.
  rewrite Hsha'. simpl. rewrite Hs.
  eexists _, _. split; [reflexivity|].
  unfold prefs_update_available, prefs_remote_sha. simpl.
  split_and!.
  - by simplify_map_eq.
  - rewrite Hs, andb_true_iff, !negb_true_iff, String.eqb_neq. split.
    + intros [H1 H2]. split; [|done]. intros ->. discriminate.
    + intros [H1 H2]. split; [|done]. by destruct s'.
  - rewrite !lookup_insert_ne by done. by rewrite Hstored.
Qed.

(** X16: the preferences panel agrees with the operators.  The panel always
    offers the check.  After a finished download it shows the time of the
    download and does not offer a download.  After a finished check it
    shows the time of the check, and it offers the download exactly when the
    check reported that an update is available. *)
Theorem preferences_panel_after (env : environment) (response_status : Z)
    (w w' : world) :
  ui_operator "row" "csd.check_for_update" (Some "FILE_REFRESH")
    ∈ CSD_AddonPreferences_draw w /\
  (CSD_OT_UpdateSensors_execute json_loads env w = (Ok FINISHED, w') ->
   ui_label "row" [Text "Last Checked: "; Val (JStr (now env))] None
     ∈ CSD_AddonPreferences_draw w' /\
   ui_operator "row" "csd.update_sensors" (Some "IMPORT")
     ∉ CSD_AddonPreferences_draw w') /\
  (CSD_OT_CheckForUpdate_execute json_loads env response_status w = (Ok FINISHED, w') ->
   ui_label "row" [Text "Last Checked: "; Val (JStr (now env))] None
     ∈ CSD_AddonPreferences_draw w' /\
   (ui_operator "row" "csd.update_sensors" (Some "IMPORT")
      ∈ CSD_AddonPreferences_draw w'
    <-> reports w'
        = (reports w ++
           [(INFO, [Text "An update for the sensor database is available."])])%list)).
Proof.
  assert (forall (v : world) (t : json) (b : bool),
            prefs_last_checked v = t -> prefs_update_available v = JBool b ->
            ui_label "row" [Text "Last Checked: "; Val t] None
              ∈ CSD_AddonPreferences_draw v /\
            (ui_operator "row" "csd.update_sensors" (Some "IMPORT")
               ∈ CSD_AddonPreferences_draw v <-> b = true)) as Hdraw.
  { intros v t b Ht Hb. unfold CSD_AddonPreferences_draw. rewrite Ht, Hb.
    split; [set_solver|].
    destruct b; simpl; (split; [|done || (intros _; set_solver)]).
    - done.
    - intros H. repeat (apply elem_of_cons in H as [H|H]; [discriminate|]).
      by apply elem_of_nil in H. }
  split_and!.
  - unfold CSD_AddonPreferences_draw. do 2 (apply elem_of_app; right).
    apply elem_of_cons. right. apply elem_of_cons. by left.
  - intros Hrun.
    apply download_finished_inv in Hrun
      as (body & raw & data & _ & _ & _ & _ & _ & Hup & Hlast & _).
    destruct (Hdraw w' (JStr (now env)) false) as [Hlabel Hbutton].
    + unfold prefs_last_checked. by rewrite Hlast.
    + unfold prefs_update_available. by rewrite Hup.
    + split; [done|]. intros Hin. by apply Hbutton in Hin.
  - rewrite CheckForUpdate_execute_eq.
    destruct (negb (online_access env)); [discriminate|].
    destruct (urlopen_API_URL env) as [response|e]; [|discriminate].
    destruct (negb (response_status =? 200)%Z); [discriminate|].
    destruct (_ ≫= _) as [remote_sha|e]; [|discriminate].
    cbv zeta. set (newer := truthy remote_sha && _). intros [= <-].
    destruct (Hdraw
      (set_preferences
         (<["last_checked" := JStr (now env)]>
            (<["update_available" := JBool newer]> (preferences w)))
         (add_report INFO
            [Text (if newer
                   then "An update for the sensor database is available."
                   else "Sensor database is up to date.")]
            (set_preferences
               (<["update_available" := JBool newer]> (preferences w)) w)))
      (JStr (now env)) newer) as [Hlabel Hbutton].
    + unfold prefs_last_checked. simpl. by simplify_map_eq.
    + unfold prefs_update_available. simpl. by simplify_map_eq.
    + split; [done|]. rewrite Hbutton. simpl. destruct newer; split; try done.
      intros H. apply app_inv_head in H. discriminate.
Qed.

(** X17: after [register] (that is, [load_sensor_data]) has found no file, or
    a file the reader rejects with [JSONDecodeError], the main panel shows
    its two "not found" labels and nothing else: no selector and no apply
    button, whatever the selection is. *)
Theorem panel_after_failed_load (env : environment) (w w' : world) :
  register json_loads env w = (Ok tt, w') ->
  sensors_json w = None \/
  (exists content, sensors_json w = Some content /\
                   json_loads content = Raise JSONDecodeError) ->
  CSD_PT_MainPanel_draw w'
  = [ui_label "layout" [Text "Sensor database not found or is empty."] None;
     ui_label "layout" [Text "Please update in Add-on Preferences."] None].
Proof.
  unfold register. rewrite load_sensor_data_eq.
  intros Hrun [Hfile|(content & Hfile & Hread)]; rewrite Hfile in Hrun.
  - by injection Hrun as <-.
  - rewrite Hread in Hrun. destruct (can_open_r env); [|discriminate].
    by injection Hrun as <-.
Qed.

End Together.

Lemma check_after_download_witness :
  exists (w2 : world) (newer : bool),
    CSD_OT_CheckForUpdate_execute reader (online [] sha_document) 200
      (CSD_OT_UpdateSensors_execute reader (online acme_document sha_document)
         (stored cut_document (JDict ∅))).2
    = (Ok FINISHED, w2) /\
    prefs_update_available w2 = JBool newer /\
    (newer = true <-> "3f2a" <> "" /\ "3f2a" <> "3f2a") /\
    prefs_remote_sha w2 = "3f2a".
Proof.
  apply (check_after_download reader (online acme_document sha_document)
           (online [] sha_document) (stored cut_document (JDict ∅)) _
           sha_document sha_document {[ "sha" := JStr "3f2a" ]}
           {[ "sha" := JStr "3f2a" ]});
    reflexivity.
Defined.

Lemma preferences_panel_after_witness :
  ui_label "row"
    [Text "Last Checked: "; Val (JStr (now (online acme_document sha_document)))] None
    ∈ CSD_AddonPreferences_draw
        (CSD_OT_UpdateSensors_execute reader (online acme_document sha_document)
           (stored cut_document (JDict ∅))).2 /\
  ui_operator "row" "csd.update_sensors" (Some "IMPORT")
    ∉ CSD_AddonPreferences_draw
        (CSD_OT_UpdateSensors_execute reader (online acme_document sha_document)
           (stored cut_document (JDict ∅))).2.
Proof.
  apply (preferences_panel_after reader (online acme_document sha_document) 200
           (stored cut_document (JDict ∅))).
  reflexivity.
Defined.

Lemma panel_after_failed_load_witness :
  CSD_PT_MainPanel_draw
    (register reader (online [] []) (stored cut_document acme)).2
  = [ui_label "layout" [Text "Sensor database not found or is empty."] None;
     ui_label "layout" [Text "Please update in Add-on Preferences."] None].
Proof.
  apply (panel_after_failed_load reader (online [] []) (stored cut_document acme)).
  - reflexivity.
  - right. exists cut_document. split; reflexivity.
Defined.
